(** * A shallow embedding of the Java expression type checker

    Source: [java_type_checker/expressions.py].

    The expression classes become one inductive type, the two methods
    [static_type] and [check_types] become recursive functions over it, and
    Python exceptions become the [Raise] outcome of a small monad.  The
    monad also keeps a call log, so that statements about the order and the
    number of calls are statements about the very definitions that compute
    the outcome.

    The module [Store] gives the same methods over an object store, where
    an expression object holds its sub-expressions by reference; it is
    there for the statement that a check writes to no object, and it is
    shown to compute what the functions over expressions compute.

    The module [java_type_checker/types.py] is not among the sources.  Its
    interface, as [expressions.py] uses it, is the class [TypeModel]; every
    theorem of the checker holds for every instance.  The module
    [SpecTypes] gives one instance, after the description of the type
    model; the concrete examples run on it. *)

From Stdlib Require Import DecimalString.
From stdpp Require Import gmap strings list.

(** ** Exceptions and outcomes *)

(** The three exception classes that [expressions.py] defines, the one that
    [method_named] raises, and the two built-in exceptions that an attribute
    access or a tuple index can raise. *)
Inductive exn : Type :=
| JavaTypeMismatchError (msg : string)
| JavaArgumentCountError (msg : string)
| JavaIllegalInstantiationError (msg : string)
| NoSuchJavaMethod (msg : string)
| AttributeError (msg : string)
| IndexError (msg : string).

(** The error kinds of the checker, without the message. *)
Inductive kind : Type :=
| TypeMismatch | ArgumentCountMismatch | IllegalInstantiation | NoSuchMethod
| BuiltinError.

Definition kind_of (x : exn) : kind :=
  match x with
  | JavaTypeMismatchError _ => TypeMismatch
  | JavaArgumentCountError _ => ArgumentCountMismatch
  | JavaIllegalInstantiationError _ => IllegalInstantiation
  | NoSuchJavaMethod _ => NoSuchMethod
  | AttributeError _ | IndexError _ => BuiltinError
  end.

(** [isinstance(x, JavaTypeError)]: the three classes of [expressions.py]
    derive from [JavaTypeError]; so does [NoSuchJavaMethod]. *)
Definition is_JavaTypeError (x : exn) : bool :=
  match kind_of x with BuiltinError => false | _ => true end.

Inductive Result (A : Type) : Type :=
| Return (a : A)
| Raise (x : exn).
Arguments Return {A} a.
Arguments Raise {A} x.

(** ** Signatures *)

Module JavaMethod.
Record t (T : Type) : Type :=
  { name : string; parameter_types : list T; return_type : T }.
Arguments name {T} _.
Arguments parameter_types {T} _.
Arguments return_type {T} _.
End JavaMethod.

Module JavaConstructor.
Record t (T : Type) : Type := { parameter_types : list T }.
Arguments parameter_types {T} _.
End JavaConstructor.

(** ** The type model, as the checker sees it *)

(** The class of the type objects, [JavaType] in [types.py]. *)
Class Types : Type := { JavaType : Type }.

(** The interface of the absent module [types.py]: what [expressions.py]
    calls on a [JavaType] and the two built-in types it names.
    - [name t] is the attribute [t.name];
    - [is_subtype_of s t] is [s.is_subtype_of(t)];
    - [method_named t m] is [t.method_named(m)]: [inr] the method found,
      [inl msg] when the call raises [NoSuchJavaMethod(msg)];
    - [constructor t] is the attribute [t.constructor], [None] on a type
      that has no such attribute;
    - [OBJECT] and [NULL] are [JavaBuiltInTypes.OBJECT] and
      [JavaBuiltInTypes.NULL]. *)
Class TypeModel {JT : Types} : Type :=
  { name : JavaType -> string;
    is_subtype_of : JavaType -> JavaType -> bool;
    method_named : JavaType -> string -> string + JavaMethod.t JavaType;
    constructor : JavaType -> option (JavaConstructor.t JavaType);
    OBJECT : JavaType;
    NULL : JavaType }.

(** ** Message formatting *)

Section Messages.
Local Open Scope string_scope.

(** [str(n)] for a length. *)
Definition str_of_nat (n : nat) : string :=
NilEmpty.string_of_uint (Nat.to_uint n).

(** ["(" + ", ".join(names) + ")"] *)
Definition parenthesized (names : list string) : string :=
"(" ++ String.concat ", " names ++ ")".

Definition assignment_message (rhs_name lhs_name lhs_type_name : string) : string :=
"Cannot assign " ++ rhs_name ++ " to variable " ++ lhs_name
  ++ " of type " ++ lhs_type_name.

Definition method_count_message (receiver_name method_name : string)
  (expected given : nat) : string :=
"Wrong number of arguments for " ++ receiver_name ++ "." ++ method_name
  ++ "(): expected " ++ str_of_nat expected ++ ", got " ++ str_of_nat given.

Definition method_mismatch_message
  (receiver_name method_name expected_names given_names : string) : string :=
receiver_name ++ "." ++ method_name ++ "() expects arguments of type "
  ++ expected_names ++ ", but got " ++ given_names.

Definition instantiation_message (type_name : string) : string :=
"Type " ++ type_name ++ " is not instantiable".

Definition constructor_count_message (type_name : string)
  (expected given : nat) : string :=
"Wrong number of arguments for " ++ type_name ++ " constructor: expected "
  ++ str_of_nat expected ++ ", got " ++ str_of_nat given.

Definition constructor_mismatch_message
  (type_name expected_names given_names : string) : string :=
type_name ++ " constructor expects arguments of type " ++ expected_names
  ++ ", but got " ++ given_names.

End Messages.

Section Checker.
Context {JT : Types} {TM : TypeModel}.

(** ** Expressions *)

(** [JavaNullLiteral] is the subclass of [JavaLiteral] whose fields are
    fixed to ["null"] and [NULL].  The arguments [*args] are a tuple. *)
#[local] Unset Elimination Schemes.
Inductive JavaExpression : Type :=
| JavaVariable (name : string) (declared_type : JavaType)
| JavaLiteral (value : string) (type : JavaType)
| JavaNullLiteral
| JavaAssignment (lhs rhs : JavaExpression)
| JavaMethodCall (receiver : JavaExpression) (method_name : string)
    (args : list JavaExpression)
| JavaConstructorCall (instantiated_type : JavaType)
    (args : list JavaExpression).
#[local] Set Elimination Schemes.

Definition class_name (e : JavaExpression) : string :=
  match e with
  | JavaVariable _ _ => "JavaVariable"
  | JavaLiteral _ _ => "JavaLiteral"
  | JavaNullLiteral => "JavaNullLiteral"
  | JavaAssignment _ _ => "JavaAssignment"
  | JavaMethodCall _ _ _ => "JavaMethodCall"
  | JavaConstructorCall _ _ => "JavaConstructorCall"
  end%string.

(** ** The call log *)

(** One entry per call the checker makes, in program order. *)
Inductive Event : Type :=
| CallCheckTypes (e : JavaExpression)
| CallStaticType (e : JavaExpression)
| CallIsSubtypeOf (s t : JavaType)
| CallMethodNamed (t : JavaType) (m : string)
| GetConstructor (t : JavaType)
| CompareLen (expected given : nat)
| CallCheckArgumentMatch (given : list JavaExpression)
    (expected : list JavaType)
| GetItem (len i : nat).

(** ** The monad: a call log and an outcome *)

Definition M (A : Type) : Type := list Event * Result A.

Definition ret {A} (a : A) : M A := ([], Return a).
Definition raise {A} (x : exn) : M A := ([], Raise x).
Definition tick (ev : Event) : M unit := ([ev], Return tt).

Definition bind {A B} (m : M A) (k : A -> M B) : M B :=
  match m with
  | (log, Return a) => let (log', r) := k a in (log ++ log', r)
  | (log, Raise x) => (log, Raise x)
  end.

Definition trace {A} (m : M A) : list Event := m.1.
Definition result {A} (m : M A) : Result A := m.2.

(** The computation returns, without an exception. *)
Definition succeeds (m : M unit) : Prop := result m = Return tt.

(** [for x in xs: f(x)] *)
Definition for_each {A} (f : A -> M unit) : list A -> M unit :=
  fix loop (xs : list A) : M unit :=
    match xs with
    | [] => ret tt
    | x :: xs' => bind (f x) (fun _ => loop xs')
    end.

(** [[f(x) for x in xs]] *)
Definition comprehension {A B} (f : A -> M B) : list A -> M (list B) :=
  fix loop (xs : list A) : M (list B) :=
    match xs with
    | [] => ret []
    | x :: xs' =>
        bind (f x) (fun y => bind (loop xs') (fun ys => ret (y :: ys)))
    end.

Local Notation "x <- c ;; k" := (bind c (fun x => k))
  (at level 100, c at next level, right associativity).
Local Notation "c ;; k" := (bind c (fun _ => k))
  (at level 100, right associativity).

(** ** Calls into the type model and built-in operations *)

(** [s.is_subtype_of(t)] *)
Definition call_is_subtype_of (s t : JavaType) : M bool :=
  tick (CallIsSubtypeOf s t) ;;
  ret (is_subtype_of s t).

(** [t.method_named(m)] *)
Definition call_method_named (t : JavaType) (m : string)
    : M (JavaMethod.t JavaType) :=
  tick (CallMethodNamed t m) ;;
  match method_named t m with
  | inr method => ret method
  | inl msg => raise (NoSuchJavaMethod msg)
  end.

(** [t.constructor] *)
Definition get_constructor (t : JavaType) : M (JavaConstructor.t JavaType) :=
  tick (GetConstructor t) ;;
  match constructor t with
  | Some c => ret c
  | None => raise (AttributeError "object has no attribute 'constructor'"%string)
  end.

(** [e.name]: of the expression classes only [JavaVariable] has the
    attribute. *)
Definition get_name (e : JavaExpression) : M string :=
  match e with
  | JavaVariable name _ => ret name
  | _ =>
      raise (AttributeError
               ("'" +:+ class_name e +:+ "' object has no attribute 'name'")%string)
  end.

(** [xs[i]] for an index [i >= 0] *)
Definition getitem {A} (xs : list A) (i : nat) : M A :=
  tick (GetItem (length xs) i) ;;
  match xs !! i with
  | Some x => ret x
  | None => raise (IndexError "index out of range"%string)
  end.

(** [len(expected) != len(given)] *)
Definition len_differs (expected given : nat) : M bool :=
  tick (CompareLen expected given) ;;
  ret (negb (expected =? given)).

(** ** [static_type] *)

Fixpoint static_type (e : JavaExpression) : M JavaType :=
  tick (CallStaticType e) ;;
  match e with
  | JavaVariable _ declared_type => ret declared_type
  | JavaLiteral _ type => ret type
  | JavaNullLiteral => ret NULL
  | JavaAssignment lhs _ => static_type lhs
  | JavaMethodCall receiver method_name _ =>
      receiver_type <- static_type receiver ;;
      method <- call_method_named receiver_type method_name ;;
      ret (JavaMethod.return_type method)
  | JavaConstructorCall instantiated_type _ => ret instantiated_type
  end.

(** ** The two helpers *)

(** The loop of [check_argument_match] over [range(len(expected_type_list))]. *)
Fixpoint check_argument_match_loop (given_expr_list : list JavaExpression)
    (expected_type_list : list JavaType) (range : list nat) : M bool :=
  match range with
  | [] => ret true
  | i :: range' =>
      given_expr <- getitem given_expr_list i ;;
      given_type <- static_type given_expr ;;
      expected_type <- getitem expected_type_list i ;;
      ok <- call_is_subtype_of given_type expected_type ;;
      if negb ok then ret false
      else check_argument_match_loop given_expr_list expected_type_list range'
  end.

Definition check_argument_match (given_expr_list : list JavaExpression)
    (expected_type_list : list JavaType) : M bool :=
  tick (CallCheckArgumentMatch given_expr_list expected_type_list) ;;
  check_argument_match_loop given_expr_list expected_type_list
    (seq 0 (length expected_type_list)).

(** [e.static_type().name if isinstance(e, JavaExpression) else e.name] *)
Definition name_of_thing (e : JavaExpression + JavaType) : M string :=
  match e with
  | inl e => t <- static_type e ;; ret (name t)
  | inr t => ret (name t)
  end.

Definition _names (named_things : list (JavaExpression + JavaType))
    : M string :=
  names <- comprehension name_of_thing named_things ;;
  ret (parenthesized names).

(** ** [check_types] *)

Fixpoint check_types (e : JavaExpression) : M unit :=
  tick (CallCheckTypes e) ;;
  match e with
  | JavaVariable _ _ => ret tt
  | JavaLiteral _ _ => ret tt
  | JavaNullLiteral => ret tt
  | JavaAssignment lhs rhs =>
      check_types lhs ;;
      check_types rhs ;;
      lhs_type <- static_type lhs ;;
      rhs_type <- static_type rhs ;;
      ok <- call_is_subtype_of rhs_type lhs_type ;;
      if negb ok then
        lhs_name <- get_name lhs ;;
        raise (JavaTypeMismatchError
                 (assignment_message (name rhs_type) lhs_name (name lhs_type)))
      else ret tt
  | JavaMethodCall receiver method_name args =>
      check_types receiver ;;
      for_each check_types args ;;
      receiver_type <- static_type receiver ;;
      method <- call_method_named receiver_type method_name ;;
      differs <- len_differs (length (JavaMethod.parameter_types method))
                   (length args) ;;
      if differs then
        receiver_type' <- static_type receiver ;;
        raise (JavaArgumentCountError
                 (method_count_message (name receiver_type') method_name
                    (length (JavaMethod.parameter_types method))
                    (length args)))
      else
        ok <- check_argument_match args (JavaMethod.parameter_types method) ;;
        if negb ok then
          receiver_type' <- static_type receiver ;;
          expected_names <-
            _names (map inr (JavaMethod.parameter_types method)) ;;
          given_names <- _names (map inl args) ;;
          raise (JavaTypeMismatchError
                   (method_mismatch_message (name receiver_type') method_name
                      expected_names given_names))
        else ret tt
  | JavaConstructorCall instantiated_type args =>
      for_each check_types args ;;
      ok <- call_is_subtype_of instantiated_type OBJECT ;;
      if negb ok then
        raise (JavaIllegalInstantiationError
                 (instantiation_message (name instantiated_type)))
      else
        c <- get_constructor instantiated_type ;;
        let parameter_types := JavaConstructor.parameter_types c in
        differs <- len_differs (length parameter_types) (length args) ;;
        if differs then
          c' <- get_constructor instantiated_type ;;
          raise (JavaArgumentCountError
                   (constructor_count_message (name instantiated_type)
                      (length (JavaConstructor.parameter_types c'))
                      (length args)))
        else
          ok <- check_argument_match args parameter_types ;;
          if negb ok then
            expected_names <- _names (map inr parameter_types) ;;
            given_names <- _names (map inl args) ;;
            raise (JavaTypeMismatchError
                     (constructor_mismatch_message (name instantiated_type)
                        expected_names given_names))
          else ret tt
  end.

(** [static_type] returns the type [t] on [e]. *)
Definition has_static_type (e : JavaExpression) (t : JavaType) : Prop :=
  result (static_type e) = Return t.

(** From position [k] on, every given type is a subtype of the expected
    type at the same position. *)
Definition match_from (k : nat) (given_types expected_types : list JavaType)
    : Prop :=
  forall i given expected,
    k <= i -> given_types !! i = Some given ->
    expected_types !! i = Some expected ->
    is_subtype_of given expected = true.

(** At some position the static type of the argument is not a subtype of
    the parameter type at that position. *)
Definition argument_mismatch (args : list JavaExpression)
    (parameter_types : list JavaType) : Prop :=
  exists i arg given expected,
    args !! i = Some arg /\ has_static_type arg given /\
    parameter_types !! i = Some expected /\
    is_subtype_of given expected = false.

(** An invariant of a computation: [Q] holds of every call in its log, and
    [R] of the exception if it raises one. *)
Definition sound {A} (Q : Event -> Prop) (R : exn -> Prop) (m : M A) : Prop :=
  Forall Q (trace m) /\ forall x, result m = Raise x -> R x.

(** The call is not a call of [check_types]. *)
Definition not_a_check (ev : Event) : Prop :=
  match ev with
  | CallCheckTypes _ => False
  | _ => True
  end.

(** A call of [check_argument_match] gets lists of one length, and an index
    is within the length of its list. *)
Definition well_indexed (ev : Event) : Prop :=
  match ev with
  | CallCheckArgumentMatch given expected => length given = length expected
  | GetItem len i => i < len
  | _ => True
  end.

(** The call is not a call of [check_argument_match]. *)
Definition not_a_match (ev : Event) : Prop :=
  match ev with
  | CallCheckArgumentMatch _ _ => False
  | _ => True
  end.

(** A call of [check_argument_match] comes directly after the comparison of
    the lengths of its two lists, and the two lengths are the same. *)
Definition follows_comparison (prev : option Event) (ev : Event) : Prop :=
  match ev with
  | CallCheckArgumentMatch given expected =>
      prev = Some (CompareLen (length expected) (length given)) /\
      length given = length expected
  | _ => True
  end.

(** [follows_comparison] along a log that comes after the call [prev]. *)
Fixpoint guarded (prev : option Event) (log : list Event) : Prop :=
  match log with
  | [] => True
  | ev :: log' => follows_comparison prev ev /\ guarded (Some ev) log'
  end.

(** The last call of a log that comes after the call [prev]. *)
Definition last_call (prev : option Event) (log : list Event) : option Event :=
  match last log with
  | Some ev => Some ev
  | None => prev
  end.

(** Wherever the computation starts, its log is guarded. *)
Definition guarded_everywhere {A} (m : M A) : Prop :=
  forall prev, guarded prev (trace m).

Definition not_an_IndexError (x : exn) : Prop :=
  match x with
  | IndexError _ => False
  | _ => True
  end.

(** The sub-expressions of a node, in the order in which [check_types]
    visits them. *)
Definition sub_expressions (e : JavaExpression) : list JavaExpression :=
  match e with
  | JavaVariable _ _ | JavaLiteral _ _ | JavaNullLiteral => []
  | JavaAssignment lhs rhs => [lhs; rhs]
  | JavaMethodCall receiver _ args => receiver :: args
  | JavaConstructorCall _ args => args
  end.

End Checker.

Arguments JavaExpression {JT}.
Arguments Event {JT}.

(** ** The checker over an object store *)

(** The same methods once more, now over Python's object graph: an
    expression object lives at an address of a store and holds its
    sub-expressions by reference, so that one object may be an operand of
    several others.  Every attribute access reads the store, and the store
    is threaded through every call.  A walk takes fuel, one unit per
    nested call; without fuel, or on an address that holds no object,
    there is no outcome. *)
Module Store.
Section Store.
Context {JT : Types} {TM : TypeModel}.

Inductive object : Type :=
| VariableObject (name : string) (declared_type : JavaType)
| LiteralObject (value : string) (type : JavaType)
| NullLiteralObject
| AssignmentObject (lhs rhs : positive)
| MethodCallObject (receiver : positive) (method_name : string)
    (args : list positive)
| ConstructorCallObject (instantiated_type : JavaType)
    (args : list positive).

Definition class_name (o : object) : string :=
  match o with
  | VariableObject _ _ => "JavaVariable"
  | LiteralObject _ _ => "JavaLiteral"
  | NullLiteralObject => "JavaNullLiteral"
  | AssignmentObject _ _ => "JavaAssignment"
  | MethodCallObject _ _ _ => "JavaMethodCall"
  | ConstructorCallObject _ _ => "JavaConstructorCall"
  end%string.

(** A computation from a store to a store and, if there is one, an
    outcome. *)
Definition ST (A : Type) : Type :=
  gmap positive object -> gmap positive object * option (Result A).

Definition ret {A} (a : A) : ST A := fun h => (h, Some (Return a)).
Definition raise {A} (x : exn) : ST A := fun h => (h, Some (Raise x)).
Definition no_outcome {A} : ST A := fun h => (h, None).

Definition bind {A B} (m : ST A) (k : A -> ST B) : ST B :=
  fun h =>
    match m h with
    | (h', Some (Return a)) => k a h'
    | (h', Some (Raise x)) => (h', Some (Raise x))
    | (h', None) => (h', None)
    end.

Local Notation "x <- c ;; k" := (bind c (fun x => k))
  (at level 100, c at next level, right associativity).
Local Notation "c ;; k" := (bind c (fun _ => k))
  (at level 100, right associativity).

(** The object at an address. *)
Definition read (self : positive) : ST object :=
  fun h =>
    match h !! self with
    | Some o => (h, Some (Return o))
    | None => (h, None)
    end.

Definition no_attribute {A} (o : object) (attribute : string) : ST A :=
  raise (AttributeError
           ("'" +:+ class_name o +:+ "' object has no attribute '"
              +:+ attribute +:+ "'")%string).

(** *** Attribute accesses *)

(** [self.name] *)
Definition get_name (self : positive) : ST string :=
  o <- read self ;;
  match o with
  | VariableObject name _ => ret name
  | _ => no_attribute o "name"
  end.

(** [self.declared_type] *)
Definition get_declared_type (self : positive) : ST JavaType :=
  o <- read self ;;
  match o with
  | VariableObject _ declared_type => ret declared_type
  | _ => no_attribute o "declared_type"
  end.

(** [self.type] *)
Definition get_type (self : positive) : ST JavaType :=
  o <- read self ;;
  match o with
  | LiteralObject _ type => ret type
  | NullLiteralObject => ret NULL
  | _ => no_attribute o "type"
  end.

(** [self.lhs] *)
Definition get_lhs (self : positive) : ST positive :=
  o <- read self ;;
  match o with
  | AssignmentObject lhs _ => ret lhs
  | _ => no_attribute o "lhs"
  end.

(** [self.rhs] *)
Definition get_rhs (self : positive) : ST positive :=
  o <- read self ;;
  match o with
  | AssignmentObject _ rhs => ret rhs
  | _ => no_attribute o "rhs"
  end.

(** [self.receiver] *)
Definition get_receiver (self : positive) : ST positive :=
  o <- read self ;;
  match o with
  | MethodCallObject receiver _ _ => ret receiver
  | _ => no_attribute o "receiver"
  end.

(** [self.method_name] *)
Definition get_method_name (self : positive) : ST string :=
  o <- read self ;;
  match o with
  | MethodCallObject _ method_name _ => ret method_name
  | _ => no_attribute o "method_name"
  end.

(** [self.args] *)
Definition get_args (self : positive) : ST (list positive) :=
  o <- read self ;;
  match o with
  | MethodCallObject _ _ args => ret args
  | ConstructorCallObject _ args => ret args
  | _ => no_attribute o "args"
  end.

(** [self.instantiated_type] *)
Definition get_instantiated_type (self : positive) : ST JavaType :=
  o <- read self ;;
  match o with
  | ConstructorCallObject instantiated_type _ => ret instantiated_type
  | _ => no_attribute o "instantiated_type"
  end.

(** *** Calls into the type model and built-in operations *)

Definition call_method_named (t : JavaType) (m : string)
    : ST (JavaMethod.t JavaType) :=
  match method_named t m with
  | inr method => ret method
  | inl msg => raise (NoSuchJavaMethod msg)
  end.

Definition get_constructor (t : JavaType) : ST (JavaConstructor.t JavaType) :=
  match constructor t with
  | Some c => ret c
  | None => raise (AttributeError "object has no attribute 'constructor'"%string)
  end.

Definition getitem {A} (xs : list A) (i : nat) : ST A :=
  match xs !! i with
  | Some x => ret x
  | None => raise (IndexError "index out of range"%string)
  end.

Definition for_each {A} (f : A -> ST unit) : list A -> ST unit :=
  fix loop (xs : list A) : ST unit :=
    match xs with
    | [] => ret tt
    | x :: xs' => f x ;; loop xs'
    end.

Definition comprehension {A B} (f : A -> ST B) : list A -> ST (list B) :=
  fix loop (xs : list A) : ST (list B) :=
    match xs with
    | [] => ret []
    | x :: xs' => y <- f x ;; ys <- loop xs' ;; ret (y :: ys)
    end.

(** *** [static_type] *)

Fixpoint static_type (fuel : nat) (self : positive) : ST JavaType :=
  match fuel with
  | 0 => no_outcome
  | S fuel' =>
      o <- read self ;;
      match o with
      | VariableObject _ _ => get_declared_type self
      | LiteralObject _ _ => get_type self
      | NullLiteralObject => ret NULL
      | AssignmentObject _ _ =>
          lhs <- get_lhs self ;;
          static_type fuel' lhs
      | MethodCallObject _ _ _ =>
          receiver <- get_receiver self ;;
          receiver_type <- static_type fuel' receiver ;;
          method_name <- get_method_name self ;;
          method <- call_method_named receiver_type method_name ;;
          ret (JavaMethod.return_type method)
      | ConstructorCallObject _ _ => get_instantiated_type self
      end
  end.

(** *** The two helpers *)

Fixpoint check_argument_match_loop (fuel : nat)
    (given_expr_list : list positive) (expected_type_list : list JavaType)
    (range : list nat) : ST bool :=
  match range with
  | [] => ret true
  | i :: range' =>
      given_expr <- getitem given_expr_list i ;;
      given_type <- static_type fuel given_expr ;;
      expected_type <- getitem expected_type_list i ;;
      if negb (is_subtype_of given_type expected_type) then ret false
      else check_argument_match_loop fuel given_expr_list expected_type_list
             range'
  end.

Definition check_argument_match (fuel : nat) (given_expr_list : list positive)
    (expected_type_list : list JavaType) : ST bool :=
  check_argument_match_loop fuel given_expr_list expected_type_list
    (seq 0 (length expected_type_list)).

Definition name_of_thing (fuel : nat) (e : positive + JavaType) : ST string :=
  match e with
  | inl e => t <- static_type fuel e ;; ret (name t)
  | inr t => ret (name t)
  end.

Definition _names (fuel : nat) (named_things : list (positive + JavaType))
    : ST string :=
  names <- comprehension (name_of_thing fuel) named_things ;;
  ret (parenthesized names).

(** *** [check_types] *)

Fixpoint check_types (fuel : nat) (self : positive) : ST unit :=
  match fuel with
  | 0 => no_outcome
  | S fuel' =>
      o <- read self ;;
      match o with
      | VariableObject _ _ => ret tt
      | LiteralObject _ _ => ret tt
      | NullLiteralObject => ret tt
      | AssignmentObject _ _ =>
          lhs <- get_lhs self ;;
          check_types fuel' lhs ;;
          rhs <- get_rhs self ;;
          check_types fuel' rhs ;;
          lhs <- get_lhs self ;;
          lhs_type <- static_type fuel' lhs ;;
          rhs <- get_rhs self ;;
          rhs_type <- static_type fuel' rhs ;;
          if negb (is_subtype_of rhs_type lhs_type) then
            lhs <- get_lhs self ;;
            lhs_name <- get_name lhs ;;
            raise (JavaTypeMismatchError
                     (assignment_message (name rhs_type) lhs_name
                        (name lhs_type)))
          else ret tt
      | MethodCallObject _ _ _ =>
          receiver <- get_receiver self ;;
          check_types fuel' receiver ;;
          args <- get_args self ;;
          for_each (check_types fuel') args ;;
          receiver <- get_receiver self ;;
          receiver_type <- static_type fuel' receiver ;;
          method_name <- get_method_name self ;;
          method <- call_method_named receiver_type method_name ;;
          args <- get_args self ;;
          if negb (length (JavaMethod.parameter_types method) =? length args)
          then
            receiver <- get_receiver self ;;
            receiver_type' <- static_type fuel' receiver ;;
            method_name <- get_method_name self ;;
            args <- get_args self ;;
            raise (JavaArgumentCountError
                     (method_count_message (name receiver_type') method_name
                        (length (JavaMethod.parameter_types method))
                        (length args)))
          else
            args <- get_args self ;;
            ok <- check_argument_match fuel' args
                    (JavaMethod.parameter_types method) ;;
            if negb ok then
              receiver <- get_receiver self ;;
              receiver_type' <- static_type fuel' receiver ;;
              method_name <- get_method_name self ;;
              expected_names <-
                _names fuel' (map inr (JavaMethod.parameter_types method)) ;;
              args <- get_args self ;;
              given_names <- _names fuel' (map inl args) ;;
              raise (JavaTypeMismatchError
                       (method_mismatch_message (name receiver_type')
                          method_name expected_names given_names))
            else ret tt
      | ConstructorCallObject _ _ =>
          args <- get_args self ;;
          for_each (check_types fuel') args ;;
          instantiated_type <- get_instantiated_type self ;;
          if negb (is_subtype_of instantiated_type OBJECT) then
            instantiated_type <- get_instantiated_type self ;;
            raise (JavaIllegalInstantiationError
                     (instantiation_message (name instantiated_type)))
          else
            instantiated_type <- get_instantiated_type self ;;
            c <- get_constructor instantiated_type ;;
            let parameter_types := JavaConstructor.parameter_types c in
            args <- get_args self ;;
            if negb (length parameter_types =? length args) then
              instantiated_type <- get_instantiated_type self ;;
              c' <- get_constructor instantiated_type ;;
              args <- get_args self ;;
              raise (JavaArgumentCountError
                       (constructor_count_message (name instantiated_type)
                          (length (JavaConstructor.parameter_types c'))
                          (length args)))
            else
              args <- get_args self ;;
              ok <- check_argument_match fuel' args parameter_types ;;
              if negb ok then
                instantiated_type <- get_instantiated_type self ;;
                expected_names <- _names fuel' (map inr parameter_types) ;;
                args <- get_args self ;;
                given_names <- _names fuel' (map inl args) ;;
                raise (JavaTypeMismatchError
                         (constructor_mismatch_message
                            (name instantiated_type) expected_names
                            given_names))
              else ret tt
      end
  end.

(** *** Stores that hold a given expression *)

(** [represents h a e]: the object graph under address [a] of the store
    [h] unfolds to the expression [e].  Two operands may be one object;
    a graph with a cycle unfolds to no expression. *)
#[local] Unset Elimination Schemes.
Inductive represents (h : gmap positive object)
    : positive -> JavaExpression -> Prop :=
| represents_variable a name declared_type :
    h !! a = Some (VariableObject name declared_type) ->
    represents h a (JavaVariable name declared_type)
| represents_literal a value type :
    h !! a = Some (LiteralObject value type) ->
    represents h a (JavaLiteral value type)
| represents_null a :
    h !! a = Some NullLiteralObject ->
    represents h a JavaNullLiteral
| represents_assignment a lhs rhs e_lhs e_rhs :
    h !! a = Some (AssignmentObject lhs rhs) ->
    represents h lhs e_lhs ->
    represents h rhs e_rhs ->
    represents h a (JavaAssignment e_lhs e_rhs)
| represents_method_call a receiver method_name args e_receiver e_args :
    h !! a = Some (MethodCallObject receiver method_name args) ->
    represents h receiver e_receiver ->
    Forall2 (represents h) args e_args ->
    represents h a (JavaMethodCall e_receiver method_name e_args)
| represents_constructor_call a instantiated_type args e_args :
    h !! a = Some (ConstructorCallObject instantiated_type args) ->
    Forall2 (represents h) args e_args ->
    represents h a (JavaConstructorCall instantiated_type e_args).
#[local] Set Elimination Schemes.

(** The computation leaves the store as it found it. *)
Definition preserves_store {A} (m : ST A) : Prop :=
  forall h, (m h).1 = h.

(** On the store [h] the computation leaves the store as it is and has
    the outcome of the computation [m'] of the checker over expressions. *)
Definition simulates {A} (h : gmap positive object) (m : ST A) (m' : M A)
    : Prop :=
  m h = (h, Some (result m')).

End Store.
End Store.

(** The number of nested calls that a walk of an expression makes. *)
Fixpoint height {JT : Types} (e : JavaExpression) : nat :=
  match e with
  | JavaVariable _ _ | JavaLiteral _ _ | JavaNullLiteral => 1
  | JavaAssignment lhs rhs => S (height lhs `max` height rhs)
  | JavaMethodCall receiver _ args =>
      S (height receiver `max` foldr (fun a n => height a `max` n) 0 args)
  | JavaConstructorCall _ args =>
      S (foldr (fun a n => height a `max` n) 0 args)
  end.

(** ** The nodes of an expression, and what a call may be given *)

Section Nodes.
Context {JT : Types} {TM : TypeModel}.

(** The expression and all its descendants: a node before its
    sub-expressions, and these in the order of [sub_expressions]. *)
Fixpoint nodes (e : JavaExpression) : list JavaExpression :=
  e :: match e with
       | JavaVariable _ _ | JavaLiteral _ _ | JavaNullLiteral => []
       | JavaAssignment lhs rhs => nodes lhs ++ nodes rhs
       | JavaMethodCall receiver _ args =>
           nodes receiver ++ concat (map nodes args)
       | JavaConstructorCall _ args => concat (map nodes args)
       end.

(** The expressions on which a log records a call of [check_types], in the
    order of the calls. *)
Definition checked_nodes (log : list Event) : list JavaExpression :=
  omap (fun ev => match ev with
                  | CallCheckTypes e => Some e
                  | _ => None
                  end) log.

(** The call is a call of [static_type] or of [method_named]. *)
Definition static_type_call (ev : Event) : Prop :=
  match ev with
  | CallStaticType _ | CallMethodNamed _ _ => True
  | _ => False
  end.

Definition is_lookup_failure (x : exn) : Prop :=
  match x with
  | NoSuchJavaMethod _ => True
  | _ => False
  end.

(** A node as the docstrings describe it: the left side of an assignment
    is a [JavaVariable], and a type that passes the test of
    [JavaConstructorCall.check_types] has the attribute [constructor]. *)
Definition proper_node (e : JavaExpression) : Prop :=
  match e with
  | JavaAssignment lhs _ =>
      match lhs with
      | JavaVariable _ _ => True
      | _ => False
      end
  | JavaConstructorCall instantiated_type _ =>
      is_subtype_of instantiated_type OBJECT = true ->
      constructor instantiated_type <> None
  | _ => True
  end.

Definition proper (e : JavaExpression) : Prop := Forall proper_node (nodes e).

(** At position [i] there are an expression and an expected type, the
    expression has a static type, and the answer of [is_subtype_of] on
    that type and the expected type is [verdict]. *)
Definition position_compares (verdict : bool)
    (given : list JavaExpression) (expected : list JavaType) (i : nat)
    : Prop :=
  exists arg given_type expected_type,
    given !! i = Some arg /\ has_static_type arg given_type /\
    expected !! i = Some expected_type /\
    is_subtype_of given_type expected_type = verdict.

(** What [_names] takes the name of: the static type of an expression, or
    the type itself. *)
Definition thing_has_type (thing : JavaExpression + JavaType) (t : JavaType)
    : Prop :=
  match thing with
  | inl e => has_static_type e t
  | inr t' => t' = t
  end.

End Nodes.

(** ** A concrete type model *)

Module SpecTypes.

(** Modelled from the spec: the types of the absent module [types.py]
    (section 3, "Type"): primitive types and the null type, and object
    types, which a class table describes by name.  The object root is the
    class named ["Object"]. *)
Inductive type : Type :=
| Primitive (name : string)
| NullType
| Class (name : string).

#[export] Instance type_eq_dec : EqDecision type.
Proof. solve_decision. Defined.

(** Modelled from the spec: an object type (section 3) has an optional
    superclass, exactly one constructor signature and named methods. *)
Record class_decl : Type :=
  { superclass : option string;
    class_constructor : JavaConstructor.t type;
    methods : list (JavaMethod.t type) }.

Definition class_table : Type := gmap string class_decl.

Definition root : string := "Object".

(** Modelled from the spec: the superclass link of a class; a class
    declared without a superclass hangs under the object root, the root
    itself has none. *)
Definition parent (ct : gmap string class_decl) (c : string) : option string :=
  if bool_decide (c = root) then None
  else match ct !! c with
       | Some d => Some (default root (superclass d))
       | None => None
       end.

(** Modelled from the spec: the superclass chain of a class, the class
    itself first (section 4.1).  The fuel bounds the walk by the size of
    the table; the chain of a table without cycles is shorter. *)
Fixpoint chain_from (ct : gmap string class_decl) (fuel : nat) (c : string)
    : list string :=
  match fuel with
  | 0 => []
  | S fuel' =>
      c :: match parent ct c with
           | Some d => chain_from ct fuel' d
           | None => []
           end
  end.

Definition chain (ct : gmap string class_decl) (c : string) : list string :=
  chain_from ct (S (size ct)) c.

Definition type_name (t : type) : string :=
  match t with
  | Primitive n => n
  | NullType => "null"
  | Class n => n
  end.

(** Modelled from the spec: [is_subtype_of] of section 4.1.  The same type:
    true.  The null type: true against every reference type, false against
    a primitive.  Otherwise the walk up the superclass chain. *)
Definition spec_is_subtype_of (ct : gmap string class_decl)
    (candidate target : type) : bool :=
  if bool_decide (candidate = target) then true
  else match candidate, target with
       | NullType, Class _ => true
       | Class c, Class d => bool_decide (d ∈ chain ct c)
       | _, _ => false
       end.

Definition declares (m : string) (d : class_decl)
    : option (JavaMethod.t type) :=
  List.find (fun method => String.eqb (JavaMethod.name method) m) (methods d).

(** Modelled from the spec: [method_named] of section 4.1 searches the type,
    then its ancestors in order, and fails with [NoSuchMethod] if the name
    is absent in the whole chain. *)
Fixpoint search (ct : gmap string class_decl) (m : string)
    (classes : list string) : option (JavaMethod.t type) :=
  match classes with
  | [] => None
  | c :: classes' =>
      match ct !! c ≫= declares m with
      | Some method => Some method
      | None => search ct m classes'
      end
  end.

Definition spec_method_named (ct : gmap string class_decl) (t : type)
    (m : string) : string + JavaMethod.t type :=
  match t with
  | Class c =>
      match search ct m (chain ct c) with
      | Some method => inr method
      | None => inl (c +:+ " has no method named " +:+ m)%string
      end
  | _ => inl ("Type " +:+ type_name t +:+ " does not have methods")%string
  end.

(** Modelled from the spec: [constructor] of section 4.1; only an object
    type has one. *)
Definition spec_constructor (ct : gmap string class_decl) (t : type)
    : option (JavaConstructor.t type) :=
  match t with
  | Class c => class_constructor <$> ct !! c
  | _ => None
  end.

#[export] Instance spec_types : Types := {| JavaType := type |}.

Definition model (ct : gmap string class_decl) : TypeModel :=
  {| name := type_name;
     is_subtype_of := spec_is_subtype_of ct;
     method_named := spec_method_named ct;
     constructor := spec_constructor ct;
     OBJECT := Class root;
     NULL := NullType |}.

(** *** The class table of the examples *)

Definition INT : type := Primitive "int".
Definition BOOLEAN : type := Primitive "boolean".
Definition STRING : type := Class "String".
Definition ANIMAL : type := Class "Animal".
Definition DOG : type := Class "Dog".
Definition FOO : type := Class "Foo".

Definition no_args : JavaConstructor.t type :=
  {| JavaConstructor.parameter_types := [] |}.

Definition speak : JavaMethod.t type :=
  {| JavaMethod.name := "speak";
     JavaMethod.parameter_types := [];
     JavaMethod.return_type := STRING |}.

Definition bar : JavaMethod.t type :=
  {| JavaMethod.name := "bar";
     JavaMethod.parameter_types := [INT; INT];
     JavaMethod.return_type := INT |}.

Definition new_Foo : JavaConstructor.t type :=
  {| JavaConstructor.parameter_types := [ANIMAL] |}.

(** [Animal] declares [speak() -> String], [Dog] extends [Animal], and
    [Foo] declares [bar(int, int) -> int] and a constructor [Foo(Animal)]. *)
Definition zoo : gmap string class_decl :=
  list_to_map
    [ ("Object"%string,
       {| superclass := None; class_constructor := no_args; methods := [] |});
      ("String"%string,
       {| superclass := None; class_constructor := no_args; methods := [] |});
      ("Animal"%string,
       {| superclass := None; class_constructor := no_args;
          methods := [speak] |});
      ("Dog"%string,
       {| superclass := Some "Animal"%string; class_constructor := no_args;
          methods := [] |});
      ("Foo"%string,
       {| superclass := None; class_constructor := new_Foo;
          methods := [bar] |}) ].

#[export] Instance zoo_model : TypeModel := model zoo.

(** *** The expressions of the examples *)

Definition foo : JavaExpression := JavaVariable "foo" FOO.
Definition dog : JavaExpression := JavaVariable "d" DOG.
Definition one : JavaExpression := JavaLiteral "1" INT.

(** [foo.bar(null)] *)
Definition foo_bar_null : JavaExpression :=
  JavaMethodCall foo "bar" [JavaNullLiteral].

(** [foo.bar(1, null)] *)
Definition foo_bar_one_null : JavaExpression :=
  JavaMethodCall foo "bar" [one; JavaNullLiteral].

(** [d.bark(null)], a method that no class declares *)
Definition dog_bark : JavaExpression :=
  JavaMethodCall dog "bark" [JavaNullLiteral].

(** [foo.bar(d.bark(null))] *)
Definition foo_bar_bark : JavaExpression :=
  JavaMethodCall foo "bar" [dog_bark].

Definition new_Dog : JavaExpression := JavaConstructorCall DOG [].
Definition new_Animal : JavaExpression := JavaConstructorCall ANIMAL [].
Definition new_int : JavaExpression := JavaConstructorCall INT [].

(** [new Foo()] and [new Foo(1)] *)
Definition new_Foo_of_nothing : JavaExpression := JavaConstructorCall FOO [].
Definition new_Foo_of_one : JavaExpression := JavaConstructorCall FOO [one].

(** [Animal a = new Dog()] *)
Definition animal_gets_dog : JavaExpression :=
  JavaAssignment (JavaVariable "a" ANIMAL) new_Dog.

(** [Dog d = new Animal()] *)
Definition dog_gets_animal : JavaExpression :=
  JavaAssignment (JavaVariable "d" DOG) new_Animal.

(** A store for [foo.bar(d, d)] in which the two arguments are one
    object. *)
Definition shared_store : gmap positive Store.object :=
  list_to_map
    [ (1%positive, Store.VariableObject "foo" FOO);
      (2%positive, Store.VariableObject "d" DOG);
      (3%positive, Store.MethodCallObject 1 "bar" [2%positive; 2%positive]) ].

Definition foo_bar_dog_dog : JavaExpression :=
  JavaMethodCall foo "bar" [dog; dog].

(** A store in which an assignment is its own right side. *)
Definition cyclic_store : gmap positive Store.object :=
  list_to_map
    [ (1%positive, Store.VariableObject "a" ANIMAL);
      (2%positive, Store.AssignmentObject 1 2) ].

(** *** Further expressions and lists of the examples *)

(** [d.speak()] *)
Definition dog_speak : JavaExpression := JavaMethodCall dog "speak" [].

(** [new Foo(d)] *)
Definition new_Foo_of_dog : JavaExpression := JavaConstructorCall FOO [dog].

(** An assignment whose left side is [new Animal()], and one whose left
    side is the literal [1]. *)
Definition object_gets_dog : JavaExpression :=
  JavaAssignment new_Animal new_Dog.
Definition literal_gets_null : JavaExpression :=
  JavaAssignment one JavaNullLiteral.

Definition two_ints : list type := [INT; INT].
Definition three_ints : list type := [INT; INT; INT].

(** Given expressions: a mismatch at the second position before an
    expression without a static type; an expression without a static type
    at the second position; a third expression beyond the expected types. *)
Definition one_null_bark : list JavaExpression :=
  [one; JavaNullLiteral; dog_bark].
Definition one_bark : list JavaExpression := [one; dog_bark].
Definition one_one_dog : list JavaExpression := [one; one; dog].

Definition mixed_things : list (JavaExpression + type) :=
  [inl one; inr ANIMAL; inl JavaNullLiteral].

End SpecTypes.

(** * The theory of the checker *)

Section CheckerTheory.
Context {JT : Types} {TM : TypeModel}.

Local Notation "x <- c ;; k" := (bind c (fun x => k))
  (at level 100, c at next level, right associativity).
Local Notation "c ;; k" := (bind c (fun _ => k))
  (at level 100, right associativity).

(** ** Induction on expressions, through the argument lists *)

Lemma JavaExpression_nested_ind (P : JavaExpression -> Prop) :
  (forall name declared_type, P (JavaVariable name declared_type)) ->
  (forall value type, P (JavaLiteral value type)) ->
  P JavaNullLiteral ->
  (forall lhs rhs, P lhs -> P rhs -> P (JavaAssignment lhs rhs)) ->
  (forall receiver method_name args,
      P receiver -> Forall P args ->
      P (JavaMethodCall receiver method_name args)) ->
  (forall instantiated_type args,
      Forall P args -> P (JavaConstructorCall instantiated_type args)) ->
  forall e, P e.
Proof.
  intros Hvar Hlit Hnull Hasg Hcall Hnew.
  fix IH 1.
  intros [n t | v t | | lhs rhs | receiver m args | T args].
  - apply Hvar.
  - apply Hlit.
  - apply Hnull.
  - apply Hasg; apply IH.
  - apply Hcall; [apply IH |].
    revert args. fix IHargs 1. intros [| a args].
    + constructor.
    + constructor; [apply IH | apply IHargs].
  - apply Hnew.
    revert args. fix IHargs 1. intros [| a args].
    + constructor.
    + constructor; [apply IH | apply IHargs].
Qed.

(** ** The monad *)

Lemma result_bind {A B} (m : M A) (k : A -> M B) :
  result (bind m k) =
  match result m with
  | Return a => result (k a)
  | Raise x => Raise x
  end.
Proof.
  destruct m as [log [a | x]]; simpl; [| reflexivity].
  destruct (k a); reflexivity.
Qed.

Lemma trace_bind {A B} (m : M A) (k : A -> M B) :
  trace (bind m k) =
  trace m ++ match result m with
             | Return a => trace (k a)
             | Raise _ => []
             end.
Proof.
  destruct m as [log [a | x]]; simpl.
  - destruct (k a); reflexivity.
  - unfold trace; simpl. rewrite app_nil_r. reflexivity.
Qed.

Lemma M_eta {A} (m : M A) : m = (trace m, result m).
Proof. destruct m; reflexivity. Qed.

Lemma result_tick_bind {A} ev (k : unit -> M A) :
  result (bind (tick ev) k) = result (k tt).
Proof. rewrite result_bind. reflexivity. Qed.

Lemma trace_tick_bind {A} ev (k : unit -> M A) :
  trace (bind (tick ev) k) = ev :: trace (k tt).
Proof. rewrite trace_bind. reflexivity. Qed.

(** ** Calls into the type model *)

Lemma result_call_is_subtype_of s t :
  result (call_is_subtype_of s t) = Return (is_subtype_of s t).
Proof. reflexivity. Qed.

Lemma trace_call_is_subtype_of s t :
  trace (call_is_subtype_of s t) = [CallIsSubtypeOf s t].
Proof. reflexivity. Qed.

Lemma result_call_method_named t m :
  result (call_method_named t m) =
  match method_named t m with
  | inr method => Return method
  | inl msg => Raise (NoSuchJavaMethod msg)
  end.
Proof.
  unfold call_method_named. rewrite result_tick_bind.
  destruct (method_named t m); reflexivity.
Qed.

Lemma trace_call_method_named t m :
  trace (call_method_named t m) = [CallMethodNamed t m].
Proof.
  unfold call_method_named. rewrite trace_tick_bind.
  destruct (method_named t m); reflexivity.
Qed.

Lemma result_get_constructor t :
  result (get_constructor t) =
  match constructor t with
  | Some c => Return c
  | None => Raise (AttributeError "object has no attribute 'constructor'")
  end.
Proof.
  unfold get_constructor. rewrite result_tick_bind.
  destruct (constructor t); reflexivity.
Qed.

Lemma trace_get_constructor t :
  trace (get_constructor t) = [GetConstructor t].
Proof.
  unfold get_constructor. rewrite trace_tick_bind.
  destruct (constructor t); reflexivity.
Qed.

Lemma result_len_differs expected given :
  result (len_differs expected given) = Return (negb (expected =? given)).
Proof. reflexivity. Qed.

Lemma trace_len_differs expected given :
  trace (len_differs expected given) = [CompareLen expected given].
Proof. reflexivity. Qed.

Lemma result_getitem {A} (xs : list A) i :
  result (getitem xs i) =
  match xs !! i with
  | Some x => Return x
  | None => Raise (IndexError "index out of range")
  end.
Proof.
  unfold getitem. rewrite result_tick_bind.
  destruct (xs !! i); reflexivity.
Qed.

Lemma trace_getitem {A} (xs : list A) i :
  trace (getitem xs i) = [GetItem (length xs) i].
Proof.
  unfold getitem. rewrite trace_tick_bind.
  destruct (xs !! i); reflexivity.
Qed.

(** ** [static_type] *)

(** The outcome of [static_type], node by node. *)
Lemma result_static_type e :
  result (static_type e) =
  match e with
  | JavaVariable _ declared_type => Return declared_type
  | JavaLiteral _ type => Return type
  | JavaNullLiteral => Return NULL
  | JavaAssignment lhs _ => result (static_type lhs)
  | JavaMethodCall receiver method_name _ =>
      match result (static_type receiver) with
      | Return receiver_type =>
          match method_named receiver_type method_name with
          | inr method => Return (JavaMethod.return_type method)
          | inl msg => Raise (NoSuchJavaMethod msg)
          end
      | Raise x => Raise x
      end
  | JavaConstructorCall instantiated_type _ => Return instantiated_type
  end.
Proof.
  destruct e; cbn [static_type]; rewrite result_tick_bind; try reflexivity.
  rewrite result_bind. destruct (result (static_type e)); [| reflexivity].
  rewrite result_bind, result_call_method_named.
  destruct (method_named a method_name); reflexivity.
Qed.

(** The calls of [static_type], node by node. *)
Lemma trace_static_type e :
  trace (static_type e) =
  CallStaticType e ::
  match e with
  | JavaAssignment lhs _ => trace (static_type lhs)
  | JavaMethodCall receiver method_name _ =>
      trace (static_type receiver) ++
      match result (static_type receiver) with
      | Return receiver_type => [CallMethodNamed receiver_type method_name]
      | Raise _ => []
      end
  | _ => []
  end.
Proof.
  destruct e; cbn [static_type]; rewrite trace_tick_bind; try reflexivity.
  rewrite trace_bind. destruct (result (static_type e)); [| reflexivity].
  rewrite trace_bind, trace_call_method_named, result_call_method_named.
  destruct (method_named a method_name); reflexivity.
Qed.

(** ** Loops *)

Lemma result_unit (m : M unit) u : result m = Return u -> succeeds m.
Proof. destruct u. auto. Qed.

Lemma result_for_each_cons {A} (f : A -> M unit) x xs :
  result (for_each f (x :: xs)) =
  match result (f x) with
  | Return _ => result (for_each f xs)
  | Raise e => Raise e
  end.
Proof. cbn [for_each]. apply result_bind. Qed.

Lemma trace_for_each_cons {A} (f : A -> M unit) x xs :
  trace (for_each f (x :: xs)) =
  trace (f x) ++ match result (f x) with
                 | Return _ => trace (for_each f xs)
                 | Raise _ => []
                 end.
Proof. cbn [for_each]. apply trace_bind. Qed.

Lemma for_each_succeeds {A} (f : A -> M unit) xs :
  succeeds (for_each f xs) <-> Forall (fun x => succeeds (f x)) xs.
Proof.
  unfold succeeds. induction xs as [| x xs IH].
  - split; [constructor | reflexivity].
  - rewrite result_for_each_cons, Forall_cons. split.
    + destruct (result (f x)) as [[] | e]; [| discriminate]. tauto.
    + intros [-> H]. tauto.
Qed.

Lemma trace_for_each_succeeds {A} (f : A -> M unit) xs :
  Forall (fun x => succeeds (f x)) xs ->
  trace (for_each f xs) = concat (map (fun x => trace (f x)) xs).
Proof.
  induction 1 as [| x xs Hx _ IH]; [reflexivity |].
  rewrite trace_for_each_cons, Hx, IH. reflexivity.
Qed.

(** The first element on which the body raises ends the loop. *)
Lemma for_each_first_failure {A} (f : A -> M unit) xs i x e :
  xs !! i = Some x ->
  result (f x) = Raise e ->
  Forall (fun x => succeeds (f x)) (take i xs) ->
  for_each f xs =
  (concat (map (fun x => trace (f x)) (take (S i) xs)), Raise e).
Proof.
  revert i. induction xs as [| y xs IH]; intros i Hi Hx Hpre; [discriminate |].
  rewrite (M_eta (for_each f (y :: xs))).
  rewrite result_for_each_cons, trace_for_each_cons.
  destruct i as [| i]; simpl in Hi.
  - injection Hi as ->. rewrite Hx. simpl. rewrite !app_nil_r. reflexivity.
  - simpl in Hpre. apply Forall_cons in Hpre as [Hy Hpre].
    rewrite Hy. rewrite (IH i Hi Hx Hpre). reflexivity.
Qed.

(** A loop that raises has a first element on which the body raises. *)
Lemma for_each_raises {A} (f : A -> M unit) xs e :
  result (for_each f xs) = Raise e ->
  exists i x, xs !! i = Some x /\ result (f x) = Raise e /\
              Forall (fun x => succeeds (f x)) (take i xs).
Proof.
  induction xs as [| y xs IH]; [discriminate |].
  rewrite result_for_each_cons.
  destruct (result (f y)) as [[] | e'] eqn:Hy.
  - intros H. destruct (IH H) as (i & x & Hi & Hx & Hpre).
    exists (S i), x. split; [exact Hi | split; [exact Hx |]].
    simpl. constructor; [exact Hy | exact Hpre].
  - intros [= ->]. exists 0, y. split; [reflexivity | split; [exact Hy |]].
    simpl. constructor.
Qed.

(** ** What a successful check tells about [static_type] *)

(** Taking a successful [bind] apart. *)
Tactic Notation "bind_inv" hyp(H) "as" ident(a) ident(E) :=
  rewrite result_bind in H;
  match type of H with
  | match ?r with _ => _ end = _ =>
      destruct r as [a | ?] eqn:E; [| discriminate H]
  end.

Lemma check_succeeds_static_type e :
  succeeds (check_types e) -> exists t, has_static_type e t.
Proof.
  unfold succeeds, has_static_type. intros H.
  destruct e as [n t | v t | | lhs rhs | receiver m args | T args];
    rewrite result_static_type; eauto.
  - cbn [check_types] in H. rewrite result_tick_bind in H.
    bind_inv H as u Hlhs. bind_inv H as u' Hrhs.
    bind_inv H as lhs_type Hty. eauto.
  - cbn [check_types] in H. rewrite result_tick_bind in H.
    bind_inv H as u Hreceiver. bind_inv H as u' Hargs.
    bind_inv H as receiver_type Hty. bind_inv H as method Hmethod.
    rewrite result_call_method_named in Hmethod.
    destruct (method_named receiver_type m); [discriminate Hmethod |].
    injection Hmethod as <-. eauto.
Qed.

Lemma all_have_static_types args :
  Forall (fun a => succeeds (check_types a)) args ->
  exists given_types, Forall2 has_static_type args given_types.
Proof.
  induction 1 as [| a args Ha _ [ts IH]].
  - exists []. constructor.
  - destruct (check_succeeds_static_type a Ha) as [t Ht].
    exists (t :: ts). constructor; assumption.
Qed.

(** ** [check_argument_match] *)

Lemma mismatch_not_match_from args given_types expected_types :
  Forall2 has_static_type args given_types ->
  argument_mismatch args expected_types ->
  ~ match_from 0 given_types expected_types.
Proof.
  intros Hstatic (i & arg & given & expected & Harg & Hty & Hexp & Hsub) Hall.
  destruct (Forall2_lookup_l _ _ _ _ _ Hstatic Harg) as (given' & Hgiven & Hty').
  unfold has_static_type in *. rewrite Hty in Hty'. injection Hty' as <-.
  rewrite (Hall i given expected) in Hsub by (auto; lia). discriminate.
Qed.

Lemma result_check_argument_match_loop args given_types expected_types n :
  Forall2 has_static_type args given_types ->
  length args = length expected_types ->
  forall k, k + n = length expected_types ->
  exists b,
    result (check_argument_match_loop args expected_types (seq k n))
      = Return b /\
    (b = true -> match_from k given_types expected_types) /\
    (b = false -> argument_mismatch args expected_types).
Proof.
  intros Hstatic Hlen. induction n as [| n IH]; intros k Hk.
  - exists true. split; [reflexivity |]. split; [| discriminate].
    intros _ i given expected Hi _ Hexp.
    apply lookup_lt_Some in Hexp. simpl in Hk. lia.
  - cbn [seq check_argument_match_loop].
    assert (Hka : k < length args) by lia.
    destruct (lookup_lt_is_Some_2 args k Hka) as [a Ha].
    destruct (Forall2_lookup_l _ _ _ _ _ Hstatic Ha) as (given & Hgiven & Hty).
    assert (Hkp : k < length expected_types) by lia.
    destruct (lookup_lt_is_Some_2 expected_types k Hkp) as [expected Hexp].
    rewrite result_bind, result_getitem, Ha.
    rewrite result_bind, Hty.
    rewrite result_bind, result_getitem, Hexp.
    rewrite result_bind, result_call_is_subtype_of.
    destruct (is_subtype_of given expected) eqn:Hsub; simpl.
    + destruct (IH (S k)) as (b & Hb & Htrue & Hfalse); [lia |].
      exists b. split; [exact Hb |]. split; [| exact Hfalse].
      intros Hbt i g x Hi Hg Hx.
      destruct (decide (i = k)) as [-> | Hne].
      * congruence.
      * apply (Htrue Hbt i); [lia | assumption | assumption].
    + exists false. split; [reflexivity |]. split; [discriminate |].
      intros _. exists k, a, given, expected. auto.
Qed.

Lemma result_check_argument_match args given_types expected_types :
  Forall2 has_static_type args given_types ->
  length args = length expected_types ->
  exists b,
    result (check_argument_match args expected_types) = Return b /\
    (b = true -> match_from 0 given_types expected_types) /\
    (b = false -> argument_mismatch args expected_types).
Proof.
  intros Hstatic Hlen. unfold check_argument_match.
  rewrite result_tick_bind.
  apply (result_check_argument_match_loop args given_types); auto.
Qed.

(** ** [_names] *)

Lemma result_comprehension_cons {A B} (f : A -> M B) x xs :
  result (comprehension f (x :: xs)) =
  match result (f x) with
  | Return y =>
      match result (comprehension f xs) with
      | Return ys => Return (y :: ys)
      | Raise e => Raise e
      end
  | Raise e => Raise e
  end.
Proof.
  cbn [comprehension]. rewrite result_bind.
  destruct (result (f x)); [| reflexivity].
  rewrite result_bind.
  destruct (result (comprehension f xs)); reflexivity.
Qed.

Lemma result_names_of_types (types : list JavaType) :
  result (_names (map inr types)) = Return (parenthesized (map name types)).
Proof.
  unfold _names. rewrite result_bind.
  assert (H : result (comprehension name_of_thing (map inr types))
              = Return (map name types)).
  { induction types as [| t ts IH]; [reflexivity |].
    cbn [map]. rewrite result_comprehension_cons, IH. reflexivity. }
  rewrite H. reflexivity.
Qed.

Lemma result_names_of_expressions args given_types :
  Forall2 has_static_type args given_types ->
  result (_names (map inl args)) = Return (parenthesized (map name given_types)).
Proof.
  intros Hstatic. unfold _names. rewrite result_bind.
  assert (H : result (comprehension name_of_thing (map inl args))
              = Return (map name given_types)).
  { induction Hstatic as [| a t args ts Ha _ IH]; [reflexivity |].
    cbn [map]. rewrite result_comprehension_cons, IH.
    cbn [name_of_thing]. rewrite result_bind, Ha. reflexivity. }
  rewrite H. reflexivity.
Qed.

(** ** The claims about [static_type] *)

(** C7.  [static_type] returns: on a variable its declared type, on a
    literal its type, on the null literal the null type; on an assignment
    the static type of its left side, which is the declared type when the
    left side is a variable; on a method call the declared return type of
    the method that [method_named] finds, by the method name, on the static
    type of the receiver (and the exception of the receiver or of the lookup
    otherwise); on a constructor call the instantiated type. *)
Theorem static_type_computes :
  (forall name declared_type,
      result (static_type (JavaVariable name declared_type))
      = Return declared_type) /\
  (forall value type,
      result (static_type (JavaLiteral value type)) = Return type) /\
  result (static_type JavaNullLiteral) = Return NULL /\
  (forall lhs rhs,
      result (static_type (JavaAssignment lhs rhs))
      = result (static_type lhs)) /\
  (forall name declared_type rhs,
      result (static_type (JavaAssignment (JavaVariable name declared_type) rhs))
      = Return declared_type) /\
  (forall receiver method_name args,
      result (static_type (JavaMethodCall receiver method_name args)) =
      match result (static_type receiver) with
      | Return receiver_type =>
          match method_named receiver_type method_name with
          | inr method => Return (JavaMethod.return_type method)
          | inl msg => Raise (NoSuchJavaMethod msg)
          end
      | Raise x => Raise x
      end) /\
  (forall instantiated_type args,
      result (static_type (JavaConstructorCall instantiated_type args))
      = Return instantiated_type).
Proof.
  repeat split; intros; rewrite result_static_type; reflexivity.
Qed.

(** C10.  [static_type] of a method call looks the method name up on the
    static type of the receiver and does nothing else: whatever the
    arguments are, it returns the declared return type when the lookup
    finds a method, it raises the lookup's [NoSuchJavaMethod] when it does
    not, and its calls are those of the receiver's [static_type] followed
    by the one lookup; it compares no lengths and no argument types. *)
Theorem method_call_static_type_only_looks_up
    receiver method_name args receiver_type :
  has_static_type receiver receiver_type ->
  let call := JavaMethodCall receiver method_name args in
  (forall method,
      method_named receiver_type method_name = inr method ->
      result (static_type call) = Return (JavaMethod.return_type method)) /\
  (forall msg,
      method_named receiver_type method_name = inl msg ->
      result (static_type call) = Raise (NoSuchJavaMethod msg)) /\
  trace (static_type call) =
    CallStaticType call :: trace (static_type receiver)
      ++ [CallMethodNamed receiver_type method_name].
Proof.
  intros Hty call. unfold has_static_type in Hty. subst call.
  split; [| split].
  - intros method Hm. rewrite result_static_type, Hty, Hm. reflexivity.
  - intros msg Hm. rewrite result_static_type, Hty, Hm. reflexivity.
  - rewrite trace_static_type, Hty. reflexivity.
Qed.

(** ** Assignment *)

Lemma result_check_assignment lhs rhs lhs_type rhs_type :
  succeeds (check_types lhs) ->
  succeeds (check_types rhs) ->
  has_static_type lhs lhs_type ->
  has_static_type rhs rhs_type ->
  result (check_types (JavaAssignment lhs rhs)) =
  if negb (is_subtype_of rhs_type lhs_type) then
    match result (get_name lhs) with
    | Return lhs_name =>
        Raise (JavaTypeMismatchError
                 (assignment_message (name rhs_type) lhs_name (name lhs_type)))
    | Raise x => Raise x
    end
  else Return tt.
Proof.
  unfold succeeds, has_static_type. intros Hlhs Hrhs Hlt Hrt.
  cbn [check_types].
  rewrite result_tick_bind, result_bind, Hlhs, result_bind, Hrhs.
  rewrite result_bind, Hlt, result_bind, Hrt.
  rewrite result_bind, result_call_is_subtype_of.
  destruct (negb _); [| reflexivity].
  rewrite result_bind. destruct (result (get_name lhs)); reflexivity.
Qed.

(** C2.  On an assignment to a variable whose right side checks
    successfully, [check_types] raises [JavaTypeMismatchError] exactly when
    the static type of the right side is not a subtype of the declared type
    of the variable, and returns otherwise. *)
Theorem assignment_checks_subtype variable declared_type rhs :
  succeeds (check_types rhs) ->
  exists rhs_type,
    has_static_type rhs rhs_type /\
    let outcome :=
      result
        (check_types (JavaAssignment (JavaVariable variable declared_type) rhs))
    in
    ((exists msg, outcome = Raise (JavaTypeMismatchError msg)) <->
     is_subtype_of rhs_type declared_type = false) /\
    (is_subtype_of rhs_type declared_type = false ->
     outcome = Raise (JavaTypeMismatchError
                        (assignment_message (name rhs_type) variable
                           (name declared_type)))) /\
    (is_subtype_of rhs_type declared_type = true -> outcome = Return tt).
Proof.
  intros Hrhs.
  destruct (check_succeeds_static_type rhs Hrhs) as [rhs_type Hty].
  exists rhs_type. split; [exact Hty |]. intros outcome. subst outcome.
  rewrite (result_check_assignment _ _ declared_type rhs_type)
    by (reflexivity || assumption).
  destruct (is_subtype_of rhs_type declared_type); cbn [negb get_name].
  - split; [| split]; [| discriminate | reflexivity].
    split; [intros [msg H]; discriminate H | discriminate].
  - split; [| split]; [| reflexivity | discriminate].
    split; [reflexivity | eauto].
Qed.

(** ** The outcome of a call whose sub-expressions check successfully *)

Lemma neq_differs (expected given : nat) :
  given <> expected -> negb (expected =? given) = true.
Proof.
  intros H. apply negb_true_iff, Nat.eqb_neq. auto.
Qed.

Lemma eq_not_differs (expected given : nat) :
  given = expected -> negb (expected =? given) = false.
Proof.
  intros ->. apply negb_false_iff, Nat.eqb_refl.
Qed.

Lemma result_check_constructor_call instantiated_type args given_types :
  Forall (fun a => succeeds (check_types a)) args ->
  Forall2 has_static_type args given_types ->
  result (check_types (JavaConstructorCall instantiated_type args)) =
  if negb (is_subtype_of instantiated_type OBJECT) then
    Raise (JavaIllegalInstantiationError
             (instantiation_message (name instantiated_type)))
  else
    match constructor instantiated_type with
    | None => Raise (AttributeError "object has no attribute 'constructor'")
    | Some c =>
        let parameter_types := JavaConstructor.parameter_types c in
        if negb (length parameter_types =? length args) then
          Raise (JavaArgumentCountError
                   (constructor_count_message (name instantiated_type)
                      (length parameter_types) (length args)))
        else
          match result (check_argument_match args parameter_types) with
          | Return true => Return tt
          | Return false =>
              Raise (JavaTypeMismatchError
                       (constructor_mismatch_message (name instantiated_type)
                          (parenthesized (map name parameter_types))
                          (parenthesized (map name given_types))))
          | Raise x => Raise x
          end
    end.
Proof.
  intros Hargs Hstatic.
  apply for_each_succeeds in Hargs. unfold succeeds in Hargs.
  cbn [check_types].
  rewrite result_tick_bind, result_bind, Hargs.
  rewrite result_bind, result_call_is_subtype_of.
  destruct (negb (is_subtype_of instantiated_type OBJECT)); [reflexivity |].
  rewrite result_bind, result_get_constructor.
  destruct (constructor instantiated_type) as [c |] eqn:Hc; [| reflexivity].
  cbv zeta. rewrite result_bind, result_len_differs.
  destruct (negb (_ =? _)).
  - rewrite result_bind, result_get_constructor, Hc. reflexivity.
  - rewrite result_bind.
    destruct (result (check_argument_match _ _)) as [[] | x];
      [reflexivity | | reflexivity].
    cbn [negb].
    rewrite result_bind, result_names_of_types.
    rewrite result_bind, (result_names_of_expressions _ _ Hstatic).
    reflexivity.
Qed.

Lemma result_check_method_call
    receiver method_name args receiver_type given_types :
  succeeds (check_types receiver) ->
  Forall (fun a => succeeds (check_types a)) args ->
  has_static_type receiver receiver_type ->
  Forall2 has_static_type args given_types ->
  result (check_types (JavaMethodCall receiver method_name args)) =
  match method_named receiver_type method_name with
  | inl msg => Raise (NoSuchJavaMethod msg)
  | inr method =>
      let parameter_types := JavaMethod.parameter_types method in
      if negb (length parameter_types =? length args) then
        Raise (JavaArgumentCountError
                 (method_count_message (name receiver_type) method_name
                    (length parameter_types) (length args)))
      else
        match result (check_argument_match args parameter_types) with
        | Return true => Return tt
        | Return false =>
            Raise (JavaTypeMismatchError
                     (method_mismatch_message (name receiver_type) method_name
                        (parenthesized (map name parameter_types))
                        (parenthesized (map name given_types))))
        | Raise x => Raise x
        end
  end.
Proof.
  intros Hreceiver Hargs Hty Hstatic.
  apply for_each_succeeds in Hargs. unfold succeeds, has_static_type in *.
  cbn [check_types].
  rewrite result_tick_bind, result_bind, Hreceiver.
  rewrite result_bind, Hargs.
  rewrite result_bind, Hty.
  rewrite result_bind, result_call_method_named.
  destruct (method_named receiver_type method_name) as [msg | method];
    [reflexivity |].
  cbv zeta. rewrite result_bind, result_len_differs.
  destruct (negb (_ =? _)).
  - rewrite result_bind, Hty. reflexivity.
  - rewrite result_bind.
    destruct (result (check_argument_match _ _)) as [[] | x];
      [reflexivity | | reflexivity].
    cbn [negb].
    rewrite result_bind, Hty.
    rewrite result_bind, result_names_of_types.
    rewrite result_bind, (result_names_of_expressions _ _ Hstatic).
    reflexivity.
Qed.

(** ** The calls of a call whose sub-expressions check successfully *)

Lemma trace_check_constructor_call instantiated_type args given_types :
  Forall (fun a => succeeds (check_types a)) args ->
  Forall2 has_static_type args given_types ->
  trace (check_types (JavaConstructorCall instantiated_type args)) =
  CallCheckTypes (JavaConstructorCall instantiated_type args)
    :: trace (for_each check_types args)
    ++ CallIsSubtypeOf instantiated_type OBJECT
    :: if negb (is_subtype_of instantiated_type OBJECT) then []
       else
         GetConstructor instantiated_type
         :: match constructor instantiated_type with
            | None => []
            | Some c =>
                let parameter_types := JavaConstructor.parameter_types c in
                CompareLen (length parameter_types) (length args)
                :: if negb (length parameter_types =? length args) then
                     [GetConstructor instantiated_type]
                   else
                     trace (check_argument_match args parameter_types)
                     ++ match result (check_argument_match args
                                        parameter_types) with
                        | Return false =>
                            trace (_names (map inr parameter_types))
                            ++ trace (_names (map inl args))
                        | _ => []
                        end
            end.
Proof.
  intros Hargs Hstatic.
  apply for_each_succeeds in Hargs. unfold succeeds in Hargs.
  cbn [check_types].
  rewrite trace_tick_bind, trace_bind, Hargs. do 2 f_equal.
  rewrite trace_bind, result_call_is_subtype_of, trace_call_is_subtype_of.
  cbn [app]. f_equal.
  destruct (negb (is_subtype_of instantiated_type OBJECT)); [reflexivity |].
  rewrite trace_bind, result_get_constructor, trace_get_constructor.
  cbn [app]. f_equal.
  destruct (constructor instantiated_type) as [c |] eqn:Hc; [| reflexivity].
  cbv zeta. rewrite trace_bind, result_len_differs, trace_len_differs.
  cbn [app]. f_equal.
  destruct (negb (_ =? _)).
  - rewrite trace_bind, result_get_constructor, trace_get_constructor, Hc.
    reflexivity.
  - rewrite trace_bind. f_equal.
    destruct (result (check_argument_match _ _)) as [[] | x];
      [reflexivity | | reflexivity].
    cbn [negb].
    rewrite trace_bind, result_names_of_types. f_equal.
    rewrite trace_bind, (result_names_of_expressions _ _ Hstatic).
    apply app_nil_r.
Qed.

Lemma trace_check_method_call
    receiver method_name args receiver_type given_types :
  succeeds (check_types receiver) ->
  Forall (fun a => succeeds (check_types a)) args ->
  has_static_type receiver receiver_type ->
  Forall2 has_static_type args given_types ->
  trace (check_types (JavaMethodCall receiver method_name args)) =
  CallCheckTypes (JavaMethodCall receiver method_name args)
    :: trace (check_types receiver)
    ++ trace (for_each check_types args)
    ++ trace (static_type receiver)
    ++ CallMethodNamed receiver_type method_name
    :: match method_named receiver_type method_name with
       | inl _ => []
       | inr method =>
           let parameter_types := JavaMethod.parameter_types method in
           CompareLen (length parameter_types) (length args)
           :: if negb (length parameter_types =? length args) then
                trace (static_type receiver)
              else
                trace (check_argument_match args parameter_types)
                ++ match result (check_argument_match args
                                   parameter_types) with
                   | Return false =>
                       trace (static_type receiver)
                       ++ trace (_names (map inr parameter_types))
                       ++ trace (_names (map inl args))
                   | _ => []
                   end
       end.
Proof.
  intros Hreceiver Hargs Hty Hstatic.
  apply for_each_succeeds in Hargs. unfold succeeds, has_static_type in *.
  cbn [check_types].
  rewrite trace_tick_bind, trace_bind, Hreceiver. do 2 f_equal.
  rewrite trace_bind, Hargs. f_equal.
  rewrite trace_bind, Hty. f_equal.
  rewrite trace_bind, result_call_method_named, trace_call_method_named.
  cbn [app]. f_equal.
  destruct (method_named receiver_type method_name) as [msg | method];
    [reflexivity |].
  cbv zeta. rewrite trace_bind, result_len_differs, trace_len_differs.
  cbn [app]. f_equal.
  destruct (negb (_ =? _)).
  - rewrite trace_bind, Hty. apply app_nil_r.
  - rewrite trace_bind. f_equal.
    destruct (result (check_argument_match _ _)) as [[] | x];
      [reflexivity | | reflexivity].
    cbn [negb].
    rewrite trace_bind, Hty. f_equal.
    rewrite trace_bind, result_names_of_types. f_equal.
    rewrite trace_bind, (result_names_of_expressions _ _ Hstatic).
    apply app_nil_r.
Qed.

(** ** Constructor calls *)

(** C4.  On a constructor call whose arguments check successfully,
    [check_types] raises [JavaIllegalInstantiationError] exactly when the
    instantiated type is not a subtype of [OBJECT].  The subtype question is
    the first call after the arguments' checks; when the answer is no it is
    also the last, so neither the constructor is read nor a length compared,
    and when the answer is yes the constructor is read next.  This holds for
    every argument list, the empty one included. *)
Theorem illegal_instantiation_checked_first instantiated_type args :
  Forall (fun a => succeeds (check_types a)) args ->
  let new := JavaConstructorCall instantiated_type args in
  ((exists msg, result (check_types new)
                = Raise (JavaIllegalInstantiationError msg)) <->
   is_subtype_of instantiated_type OBJECT = false) /\
  (is_subtype_of instantiated_type OBJECT = false ->
   result (check_types new) =
     Raise (JavaIllegalInstantiationError
              (instantiation_message (name instantiated_type)))) /\
  exists rest,
    trace (check_types new) =
      CallCheckTypes new :: trace (for_each check_types args)
        ++ CallIsSubtypeOf instantiated_type OBJECT :: rest /\
    (is_subtype_of instantiated_type OBJECT = false -> rest = []) /\
    (is_subtype_of instantiated_type OBJECT = true ->
     exists rest', rest = GetConstructor instantiated_type :: rest').
Proof.
  intros Hargs new. subst new.
  destruct (all_have_static_types args Hargs) as [given_types Hstatic].
  rewrite (result_check_constructor_call _ _ _ Hargs Hstatic).
  rewrite (trace_check_constructor_call _ _ _ Hargs Hstatic).
  destruct (is_subtype_of instantiated_type OBJECT); cbn [negb].
  - split; [| split].
    + split; [| discriminate]. intros [msg H]. exfalso.
      destruct (constructor instantiated_type) as [c |]; [| discriminate H].
      cbv zeta in H.
      destruct (negb (_ =? _)) eqn:Hlen; [discriminate H |].
      apply negb_false_iff, Nat.eqb_eq in Hlen.
      destruct (result_check_argument_match args given_types
                  (JavaConstructor.parameter_types c) Hstatic)
        as (b & Hb & _); [auto |].
      rewrite Hb in H. destruct b; discriminate H.
    + discriminate.
    + eexists. split; [reflexivity |]. split; [discriminate |].
      intros _. eexists. reflexivity.
  - split; [| split].
    + split; [reflexivity | eauto].
    + reflexivity.
    + exists []. split; [reflexivity |]. split; [reflexivity | discriminate].
Qed.

(** ** Argument counts and argument types *)

(** C1.  On a method call and on a constructor call whose sub-expressions
    check successfully and whose signature is found (for a constructor: the
    type is instantiable and has a constructor), a number of arguments that
    differs from the number of parameter types makes [check_types] raise
    [JavaArgumentCountError], whatever the types of the arguments are; the
    error is therefore never [JavaTypeMismatchError]. *)
Theorem argument_count_before_argument_types :
  (forall receiver method_name args receiver_type method,
      succeeds (check_types receiver) ->
      Forall (fun a => succeeds (check_types a)) args ->
      has_static_type receiver receiver_type ->
      method_named receiver_type method_name = inr method ->
      length args <> length (JavaMethod.parameter_types method) ->
      result (check_types (JavaMethodCall receiver method_name args)) =
        Raise (JavaArgumentCountError
                 (method_count_message (name receiver_type) method_name
                    (length (JavaMethod.parameter_types method))
                    (length args)))) /\
  (forall instantiated_type args c,
      Forall (fun a => succeeds (check_types a)) args ->
      is_subtype_of instantiated_type OBJECT = true ->
      constructor instantiated_type = Some c ->
      length args <> length (JavaConstructor.parameter_types c) ->
      result (check_types (JavaConstructorCall instantiated_type args)) =
        Raise (JavaArgumentCountError
                 (constructor_count_message (name instantiated_type)
                    (length (JavaConstructor.parameter_types c))
                    (length args)))).
Proof.
  split.
  - intros receiver method_name args receiver_type method
      Hreceiver Hargs Hty Hm Hlen.
    destruct (all_have_static_types args Hargs) as [given_types Hstatic].
    rewrite (result_check_method_call _ _ _ _ _ Hreceiver Hargs Hty Hstatic).
    rewrite Hm. cbv zeta. rewrite (neq_differs _ _ Hlen). reflexivity.
  - intros instantiated_type args c Hargs Hsub Hc Hlen.
    destruct (all_have_static_types args Hargs) as [given_types Hstatic].
    rewrite (result_check_constructor_call _ _ _ Hargs Hstatic).
    rewrite Hsub, Hc. cbv zeta. rewrite (neq_differs _ _ Hlen). reflexivity.
Qed.

(** The verdict on the argument types, once the lengths agree. *)
Lemma argument_types_verdict args given_types parameter_types
    (mismatch_error : exn) :
  Forall2 has_static_type args given_types ->
  length args = length parameter_types ->
  let outcome : Result unit :=
    match result (check_argument_match args parameter_types) with
    | Return true => Return tt
    | Return false => Raise mismatch_error
    | Raise x => Raise x
    end in
  (argument_mismatch args parameter_types /\ outcome = Raise mismatch_error) \/
  (~ argument_mismatch args parameter_types /\ outcome = Return tt).
Proof.
  intros Hstatic Hlen outcome. subst outcome.
  destruct (result_check_argument_match args given_types parameter_types
              Hstatic Hlen) as (b & -> & Htrue & Hfalse).
  destruct b.
  - right. split; [| reflexivity]. intros Hmis.
    apply (mismatch_not_match_from _ _ _ Hstatic Hmis). auto.
  - left. split; [auto | reflexivity].
Qed.

(** C3.  On a method call and on a constructor call whose sub-expressions
    check successfully, whose signature is found and whose number of
    arguments is the number of parameter types, [check_types] raises
    [JavaTypeMismatchError] exactly when at some position the static type of
    the argument is not a subtype of the parameter type at that position,
    and returns otherwise.  The error is one error for the whole list: its
    message names all the parameter types and all the static types of the
    arguments. *)
Theorem argument_types_all_or_nothing :
  (forall receiver method_name args receiver_type method,
      succeeds (check_types receiver) ->
      Forall (fun a => succeeds (check_types a)) args ->
      has_static_type receiver receiver_type ->
      method_named receiver_type method_name = inr method ->
      length args = length (JavaMethod.parameter_types method) ->
      let parameter_types := JavaMethod.parameter_types method in
      let outcome :=
        result (check_types (JavaMethodCall receiver method_name args)) in
      exists given_types,
        Forall2 has_static_type args given_types /\
        ((exists msg, outcome = Raise (JavaTypeMismatchError msg)) <->
         argument_mismatch args parameter_types) /\
        (argument_mismatch args parameter_types ->
         outcome =
           Raise (JavaTypeMismatchError
                    (method_mismatch_message (name receiver_type) method_name
                       (parenthesized (map name parameter_types))
                       (parenthesized (map name given_types))))) /\
        (~ argument_mismatch args parameter_types -> outcome = Return tt)) /\
  (forall instantiated_type args c,
      Forall (fun a => succeeds (check_types a)) args ->
      is_subtype_of instantiated_type OBJECT = true ->
      constructor instantiated_type = Some c ->
      length args = length (JavaConstructor.parameter_types c) ->
      let parameter_types := JavaConstructor.parameter_types c in
      let outcome :=
        result (check_types (JavaConstructorCall instantiated_type args)) in
      exists given_types,
        Forall2 has_static_type args given_types /\
        ((exists msg, outcome = Raise (JavaTypeMismatchError msg)) <->
         argument_mismatch args parameter_types) /\
        (argument_mismatch args parameter_types ->
         outcome =
           Raise (JavaTypeMismatchError
                    (constructor_mismatch_message (name instantiated_type)
                       (parenthesized (map name parameter_types))
                       (parenthesized (map name given_types))))) /\
        (~ argument_mismatch args parameter_types -> outcome = Return tt)).
Proof.
  split.
  - intros receiver method_name args receiver_type method
      Hreceiver Hargs Hty Hm Hlen parameter_types outcome.
    destruct (all_have_static_types args Hargs) as [given_types Hstatic].
    exists given_types. split; [exact Hstatic |].
    subst outcome.
    rewrite (result_check_method_call _ _ _ _ _ Hreceiver Hargs Hty Hstatic).
    rewrite Hm. cbv zeta. rewrite (eq_not_differs _ _ Hlen).
    fold parameter_types.
    match goal with
    | |- context [Raise (JavaTypeMismatchError ?m)] =>
        destruct (argument_types_verdict args given_types parameter_types
                    (JavaTypeMismatchError m) Hstatic Hlen)
          as [[Hmis ->] | [Hnot ->]]
    end.
    + split; [| split]; [split; eauto | reflexivity | tauto].
    + split; [| split]; [| tauto | reflexivity].
      split; [intros [msg H]; discriminate H | tauto].
  - intros instantiated_type args c Hargs Hsub Hc Hlen parameter_types outcome.
    destruct (all_have_static_types args Hargs) as [given_types Hstatic].
    exists given_types. split; [exact Hstatic |].
    subst outcome.
    rewrite (result_check_constructor_call _ _ _ Hargs Hstatic).
    rewrite Hsub, Hc. cbv zeta. rewrite (eq_not_differs _ _ Hlen).
    fold parameter_types. cbn [negb].
    match goal with
    | |- context [Raise (JavaTypeMismatchError ?m)] =>
        destruct (argument_types_verdict args given_types parameter_types
                    (JavaTypeMismatchError m) Hstatic Hlen)
          as [[Hmis ->] | [Hnot ->]]
    end.
    + split; [| split]; [split; eauto | reflexivity | tauto].
    + split; [| split]; [| tauto | reflexivity].
      split; [intros [msg H]; discriminate H | tauto].
Qed.

(** ** Method calls *)

(** C5.  On a method call whose receiver and arguments check successfully,
    [check_types] looks the method name up on the static type of the
    receiver before it compares any length: the lookup is the first call
    after the sub-expressions' checks and the receiver's [static_type].
    When the lookup raises [NoSuchJavaMethod], [check_types] raises that
    very exception, a [JavaTypeError], and makes no further call, whatever
    the number of arguments is. *)
Theorem method_lookup_before_argument_count
    receiver method_name args receiver_type :
  succeeds (check_types receiver) ->
  Forall (fun a => succeeds (check_types a)) args ->
  has_static_type receiver receiver_type ->
  let call := JavaMethodCall receiver method_name args in
  (forall msg,
      method_named receiver_type method_name = inl msg ->
      result (check_types call) = Raise (NoSuchJavaMethod msg) /\
      is_JavaTypeError (NoSuchJavaMethod msg) = true) /\
  exists rest,
    trace (check_types call) =
      CallCheckTypes call :: trace (check_types receiver)
        ++ trace (for_each check_types args)
        ++ trace (static_type receiver)
        ++ CallMethodNamed receiver_type method_name :: rest /\
    (forall msg,
        method_named receiver_type method_name = inl msg -> rest = []) /\
    (forall method,
        method_named receiver_type method_name = inr method ->
        exists rest',
          rest = CompareLen (length (JavaMethod.parameter_types method))
                   (length args) :: rest').
Proof.
  intros Hreceiver Hargs Hty call. subst call.
  destruct (all_have_static_types args Hargs) as [given_types Hstatic].
  rewrite (result_check_method_call _ _ _ _ _ Hreceiver Hargs Hty Hstatic).
  rewrite (trace_check_method_call _ _ _ _ _ Hreceiver Hargs Hty Hstatic).
  split.
  - intros msg ->. split; reflexivity.
  - eexists. split; [reflexivity |].
    destruct (method_named receiver_type method_name) as [msg | method].
    + split; [reflexivity | discriminate].
    + split; [discriminate |]. intros ? [= <-]. eexists. reflexivity.
Qed.

(** ** Invariants of the call log *)

Lemma sound_ret {A} Q R (a : A) : sound Q R (ret a).
Proof. split; [constructor | discriminate]. Qed.

Lemma sound_raise {A} Q (R : exn -> Prop) x : R x -> sound Q R (@raise _ A x).
Proof. intros H. split; [constructor |]. intros ? [= <-]. exact H. Qed.

Lemma sound_tick Q R ev : Q ev -> sound Q R (tick ev).
Proof. intros H. split; [repeat constructor; exact H | discriminate]. Qed.

Lemma sound_bind {A B} Q R (m : M A) (k : A -> M B) :
  sound Q R m ->
  (forall a, result m = Return a -> sound Q R (k a)) ->
  sound Q R (bind m k).
Proof.
  intros [Hlog Hexn] Hk. split.
  - rewrite trace_bind. apply Forall_app. split; [exact Hlog |].
    destruct (result m) as [a | x]; [apply (Hk a); reflexivity | constructor].
  - intros x. rewrite result_bind.
    destruct (result m) as [a | y].
    + apply (Hk a). reflexivity.
    + intros [= <-]. apply Hexn. reflexivity.
Qed.

(** One step through a [bind]: the first computation by the hint base, the
    rest under the knowledge of what the first returned. *)
Ltac sound_bind :=
  apply sound_bind; [| intros ? ?].

Tactic Notation "sound_bind" "as" ident(a) ident(E) :=
  apply sound_bind; [| intros a E].

Lemma sound_for_each {A} Q R (f : A -> M unit) xs :
  Forall (fun x => sound Q R (f x)) xs -> sound Q R (for_each f xs).
Proof.
  induction 1 as [| x xs Hx _ IH]; cbn [for_each].
  - apply sound_ret.
  - sound_bind; assumption.
Qed.

Lemma sound_comprehension {A B} Q R (f : A -> M B) xs :
  (forall x, sound Q R (f x)) -> sound Q R (comprehension f xs).
Proof.
  intros Hf. induction xs as [| x xs IH]; cbn [comprehension].
  - apply sound_ret.
  - sound_bind; [apply Hf |]. sound_bind; [exact IH |]. apply sound_ret.
Qed.

Lemma sound_call_is_subtype_of Q R s t :
  Q (CallIsSubtypeOf s t) -> sound Q R (call_is_subtype_of s t).
Proof.
  intros H. unfold call_is_subtype_of.
  sound_bind; [apply sound_tick, H | apply sound_ret].
Qed.

Lemma sound_call_method_named Q (R : exn -> Prop) t m :
  Q (CallMethodNamed t m) -> (forall msg, R (NoSuchJavaMethod msg)) ->
  sound Q R (call_method_named t m).
Proof.
  intros H HR. unfold call_method_named.
  sound_bind; [apply sound_tick, H |].
  destruct (method_named t m); [apply sound_raise, HR | apply sound_ret].
Qed.

Lemma sound_get_constructor Q (R : exn -> Prop) t :
  Q (GetConstructor t) -> (forall msg, R (AttributeError msg)) ->
  sound Q R (get_constructor t).
Proof.
  intros H HR. unfold get_constructor.
  sound_bind; [apply sound_tick, H |].
  destruct (constructor t); [apply sound_ret | apply sound_raise, HR].
Qed.

Lemma sound_len_differs Q R expected given :
  Q (CompareLen expected given) -> sound Q R (len_differs expected given).
Proof.
  intros H. unfold len_differs.
  sound_bind; [apply sound_tick, H | apply sound_ret].
Qed.

(** An index within the list: no [IndexError]. *)
Lemma sound_getitem {A} Q R (xs : list A) i :
  Q (GetItem (length xs) i) -> i < length xs -> sound Q R (getitem xs i).
Proof.
  intros H Hi. unfold getitem.
  sound_bind; [apply sound_tick, H |].
  destruct (lookup_lt_is_Some_2 xs i Hi) as [x ->]. apply sound_ret.
Qed.

(** [static_type] only calls itself and [method_named], and it raises
    nothing but [NoSuchJavaMethod]. *)
Lemma sound_static_type Q (R : exn -> Prop) e :
  (forall e', Q (CallStaticType e')) ->
  (forall t m, Q (CallMethodNamed t m)) ->
  (forall msg, R (NoSuchJavaMethod msg)) ->
  sound Q R (static_type e).
Proof.
  intros Hs Hm HR.
  induction e as [n t | v t | | lhs rhs IHl _ | receiver m args IHr _ | T args _]
    using JavaExpression_nested_ind;
    cbn [static_type]; (sound_bind; [apply sound_tick, Hs |]);
    try apply sound_ret.
  - exact IHl.
  - sound_bind; [exact IHr |].
    sound_bind; [apply sound_call_method_named; auto | apply sound_ret].
Qed.

Lemma sound_names Q (R : exn -> Prop) named_things :
  (forall e', Q (CallStaticType e')) ->
  (forall t m, Q (CallMethodNamed t m)) ->
  (forall msg, R (NoSuchJavaMethod msg)) ->
  sound Q R (_names named_things).
Proof.
  intros Hs Hm HR. unfold _names.
  sound_bind; [| apply sound_ret].
  apply sound_comprehension. intros [e | t]; cbn [name_of_thing].
  - sound_bind; [apply sound_static_type; auto | apply sound_ret].
  - apply sound_ret.
Qed.

(** ** Indexing in [check_argument_match] *)

Lemma well_indexed_check_argument_match_loop given expected n :
  length given = length expected ->
  forall k, k + n = length expected ->
  sound well_indexed not_an_IndexError
    (check_argument_match_loop given expected (seq k n)).
Proof.
  intros Hlen. induction n as [| n IH]; intros k Hk;
    cbn [seq check_argument_match_loop].
  - apply sound_ret.
  - sound_bind; [apply sound_getitem; simpl; lia |].
    sound_bind; [apply sound_static_type; simpl; auto |].
    sound_bind; [apply sound_getitem; simpl; lia |].
    sound_bind; [apply sound_call_is_subtype_of; exact I |].
    destruct (negb _); [apply sound_ret | apply IH; lia].
Qed.

Lemma well_indexed_check_argument_match given expected :
  length given = length expected ->
  sound well_indexed not_an_IndexError (check_argument_match given expected).
Proof.
  intros Hlen. unfold check_argument_match.
  sound_bind; [apply sound_tick; exact Hlen |].
  apply well_indexed_check_argument_match_loop; auto.
Qed.

(** What [len_differs] returns decides whether the lengths agree. *)
Lemma len_differs_false expected given :
  result (len_differs expected given) = Return false -> given = expected.
Proof.
  rewrite result_len_differs. intros [= H].
  apply negb_false_iff, Nat.eqb_eq in H. auto.
Qed.

(** *** Every call of [check_argument_match] follows the comparison *)

Lemma guarded_app prev log log' :
  guarded prev (log ++ log') <->
  guarded prev log /\ guarded (last_call prev log) log'.
Proof.
  revert prev. induction log as [| ev log IH]; intros prev.
  - unfold last_call. cbn. tauto.
  - cbn [app guarded]. rewrite IH.
    replace (last_call (Some ev) log) with (last_call prev (ev :: log));
      [tauto |].
    unfold last_call. rewrite last_cons. destruct (last log); reflexivity.
Qed.

Lemma guarded_without_match prev log :
  Forall not_a_match log -> guarded prev log.
Proof.
  intros H. revert prev. induction H as [| ev log Hev _ IH]; intros prev.
  - exact I.
  - split; [| apply IH]. destruct ev; try exact I. destruct Hev.
Qed.

Lemma guarded_everywhere_without_match {A} (m : M A) :
  sound not_a_match (fun _ => True) m -> guarded_everywhere m.
Proof. intros [H _] prev. apply guarded_without_match, H. Qed.

Lemma guarded_bind {A B} (m : M A) (k : A -> M B) :
  guarded_everywhere m ->
  (forall a, result m = Return a -> guarded_everywhere (k a)) ->
  guarded_everywhere (bind m k).
Proof.
  intros Hm Hk prev. rewrite trace_bind. apply guarded_app.
  split; [apply Hm |].
  destruct (result m) as [a | x]; [apply (Hk a); reflexivity | exact I].
Qed.

Lemma guarded_for_each {A} (f : A -> M unit) xs :
  Forall (fun x => guarded_everywhere (f x)) xs ->
  guarded_everywhere (for_each f xs).
Proof.
  induction 1 as [| x xs Hx _ IH]; cbn [for_each].
  - intros prev. exact I.
  - apply guarded_bind; [exact Hx | intros _ _; exact IH].
Qed.

(** The loop of [check_argument_match] and the formatting of the message
    call [check_argument_match] no more. *)
Lemma no_match_in_loop given expected range :
  sound not_a_match (fun _ => True)
    (check_argument_match_loop given expected range).
Proof.
  induction range as [| i range IH]; cbn [check_argument_match_loop];
    [apply sound_ret |].
  assert (Hget : forall A (xs : list A),
             sound not_a_match (fun _ => True) (getitem xs i)).
  { intros A xs. unfold getitem.
    sound_bind; [apply sound_tick; exact I |].
    destruct (xs !! i); [apply sound_ret | apply sound_raise; exact I]. }
  sound_bind; [apply Hget |].
  sound_bind; [apply sound_static_type; simpl; auto |].
  sound_bind; [apply Hget |].
  sound_bind; [apply sound_call_is_subtype_of; exact I |].
  destruct (negb _); [apply sound_ret | exact IH].
Qed.

(** The comparison of the lengths, and what follows it in both kinds of
    call: an error on the count, or [check_argument_match] and then an
    error on the types or nothing. *)
Lemma guarded_count_then_types given expected
    (on_count : M unit) (on_types : M unit) :
  guarded_everywhere on_count ->
  guarded_everywhere on_types ->
  guarded_everywhere
    (bind (len_differs (length expected) (length given))
       (fun differs =>
          if differs then on_count
          else bind (check_argument_match given expected)
                 (fun ok => if negb ok then on_types else ret tt))).
Proof.
  intros Hcount Htypes prev.
  rewrite trace_bind, trace_len_differs, result_len_differs.
  destruct (negb (length expected =? length given)) eqn:Hlen.
  - split; [exact I | apply Hcount].
  - apply negb_false_iff, Nat.eqb_eq in Hlen.
    split; [exact I |].
    rewrite trace_bind. unfold check_argument_match at 1.
    rewrite trace_tick_bind. cbn [app guarded follows_comparison].
    split; [split; [reflexivity | auto] |].
    apply guarded_app. split.
    + apply guarded_without_match, no_match_in_loop.
    + destruct (result (check_argument_match given expected)) as [[] | x];
        cbn [negb]; [exact I | apply Htypes | exact I].
Qed.

Lemma guarded_check_types e : guarded_everywhere (check_types e).
Proof.
  assert (Hstatic : forall e', guarded_everywhere (static_type e'))
    by (intros e'; apply guarded_everywhere_without_match,
          sound_static_type; simpl; auto).
  assert (Hnames : forall things, guarded_everywhere (_names things))
    by (intros things; apply guarded_everywhere_without_match,
          sound_names; simpl; auto).
  assert (Hfree : forall A (m : M A),
             sound not_a_match (fun _ => True) m -> guarded_everywhere m)
    by (intros A m; apply guarded_everywhere_without_match).
  induction e
    as [n t | v t | | lhs rhs IHl IHr | receiver m args IHr IHargs
        | T args IHargs]
    using JavaExpression_nested_ind;
    cbn [check_types];
    (apply guarded_bind; [apply Hfree, sound_tick; exact I | intros _ _]);
    try (apply Hfree, sound_ret).
  - apply guarded_bind; [exact IHl | intros _ _].
    apply guarded_bind; [exact IHr | intros _ _].
    apply guarded_bind; [apply Hstatic | intros lhs_type _].
    apply guarded_bind; [apply Hstatic | intros rhs_type _].
    apply guarded_bind;
      [apply Hfree, sound_call_is_subtype_of; exact I | intros ok _].
    destruct (negb ok); [| apply Hfree, sound_ret].
    apply Hfree. sound_bind; [| apply sound_raise; exact I].
    destruct lhs; cbn [get_name];
      first [apply sound_ret | apply sound_raise; exact I].
  - apply guarded_bind; [exact IHr | intros _ _].
    apply guarded_bind; [apply guarded_for_each, IHargs | intros _ _].
    apply guarded_bind; [apply Hstatic | intros receiver_type _].
    apply guarded_bind;
      [apply Hfree, sound_call_method_named; simpl; auto | intros method _].
    apply guarded_count_then_types.
    + apply guarded_bind; [apply Hstatic | intros t _].
      apply Hfree, sound_raise; exact I.
    + apply guarded_bind; [apply Hstatic | intros t _].
      apply guarded_bind; [apply Hnames | intros expected_names _].
      apply guarded_bind; [apply Hnames | intros given_names _].
      apply Hfree, sound_raise; exact I.
  - apply guarded_bind; [apply guarded_for_each, IHargs | intros _ _].
    apply guarded_bind;
      [apply Hfree, sound_call_is_subtype_of; exact I | intros ok _].
    destruct (negb ok); [apply Hfree, sound_raise; exact I |].
    apply guarded_bind;
      [apply Hfree, sound_get_constructor; simpl; auto | intros c _].
    cbv zeta. apply guarded_count_then_types.
    + apply guarded_bind;
        [apply Hfree, sound_get_constructor; simpl; auto | intros c' _].
      apply Hfree, sound_raise; exact I.
    + apply guarded_bind; [apply Hnames | intros expected_names _].
      apply guarded_bind; [apply Hnames | intros given_names _].
      apply Hfree, sound_raise; exact I.
Qed.

(** C9.  In every check, each call of [check_argument_match] comes directly
    after the comparison of the lengths of its two lists and gets lists of
    one length, every index into a list is below the length of the list,
    and no [IndexError] comes out: the out-of-range case of the indexing is
    never taken. *)
Theorem check_argument_match_indexes_in_bounds e :
  guarded None (trace (check_types e)) /\
  Forall well_indexed (trace (check_types e)) /\
  forall msg, result (check_types e) <> Raise (IndexError msg).
Proof.
  split; [apply guarded_check_types |].
  assert (H : sound well_indexed not_an_IndexError (check_types e)).
  { induction e
      as [n t | v t | | lhs rhs IHl IHr | receiver m args IHr IHargs
          | T args IHargs]
      using JavaExpression_nested_ind;
      cbn [check_types]; (sound_bind; [apply sound_tick; exact I |]);
      try apply sound_ret.
    - sound_bind; [exact IHl |]. sound_bind; [exact IHr |].
      sound_bind; [apply sound_static_type; simpl; auto |].
      sound_bind; [apply sound_static_type; simpl; auto |].
      sound_bind; [apply sound_call_is_subtype_of; exact I |].
      destruct (negb _); [| apply sound_ret].
      sound_bind; [| apply sound_raise; exact I].
      destruct lhs; cbn [get_name];
        first [apply sound_ret | apply sound_raise; exact I].
    - sound_bind; [exact IHr |].
      sound_bind; [apply sound_for_each; exact IHargs |].
      sound_bind; [apply sound_static_type; simpl; auto |].
      sound_bind; [apply sound_call_method_named; simpl; auto |].
      sound_bind as differs Hdiffers; [apply sound_len_differs; exact I |].
      destruct differs.
      + sound_bind; [apply sound_static_type; simpl; auto |].
        apply sound_raise; exact I.
      + apply len_differs_false in Hdiffers.
        sound_bind;
          [apply well_indexed_check_argument_match; exact Hdiffers |].
        destruct (negb _); [| apply sound_ret].
        sound_bind; [apply sound_static_type; simpl; auto |].
        sound_bind; [apply sound_names; simpl; auto |].
        sound_bind; [apply sound_names; simpl; auto |].
        apply sound_raise; exact I.
    - sound_bind; [apply sound_for_each; exact IHargs |].
      sound_bind; [apply sound_call_is_subtype_of; exact I |].
      destruct (negb _); [apply sound_raise; exact I |].
      sound_bind; [apply sound_get_constructor; simpl; auto |].
      cbv zeta.
      sound_bind as differs Hdiffers; [apply sound_len_differs; exact I |].
      destruct differs.
      + sound_bind; [apply sound_get_constructor; simpl; auto |].
        apply sound_raise; exact I.
      + apply len_differs_false in Hdiffers.
        sound_bind;
          [apply well_indexed_check_argument_match; exact Hdiffers |].
        destruct (negb _); [| apply sound_ret].
        sound_bind; [apply sound_names; simpl; auto |].
        sound_bind; [apply sound_names; simpl; auto |].
        apply sound_raise; exact I. }
  destruct H as [Hlog Hexn]. split; [exact Hlog |].
  intros msg Hr. apply (Hexn _ Hr).
Qed.

(** ** Sub-expressions first *)

Lemma no_check_in_check_argument_match given expected :
  sound not_a_check (fun _ => True) (check_argument_match given expected).
Proof.
  unfold check_argument_match.
  sound_bind; [apply sound_tick; exact I |].
  generalize (seq 0 (length expected)). intros range.
  induction range as [| i range IH]; cbn [check_argument_match_loop];
    [apply sound_ret |].
  assert (Hget : forall A (xs : list A),
             sound not_a_check (fun _ => True) (getitem xs i)).
  { intros A xs. unfold getitem.
    sound_bind; [apply sound_tick; exact I |].
    destruct (xs !! i); [apply sound_ret | apply sound_raise; exact I]. }
  sound_bind; [apply Hget |].
  sound_bind; [apply sound_static_type; simpl; auto |].
  sound_bind; [apply Hget |].
  sound_bind; [apply sound_call_is_subtype_of; exact I |].
  destruct (negb _); [apply sound_ret | exact IH].
Qed.

(** The node's own checks, which follow the checks of its sub-expressions,
    call [check_types] no more. *)
Lemma check_types_prefix e :
  exists own : M unit,
    trace (check_types e) =
      CallCheckTypes e :: trace (for_each check_types (sub_expressions e))
        ++ match result (for_each check_types (sub_expressions e)) with
           | Return _ => trace own
           | Raise _ => []
           end /\
    result (check_types e) =
      match result (for_each check_types (sub_expressions e)) with
      | Return _ => result own
      | Raise x => Raise x
      end /\
    sound not_a_check (fun _ => True) own.
Proof.
  destruct e as [n t | v t | | lhs rhs | receiver m args | T args];
    cbn [check_types sub_expressions].
  - exists (ret tt). repeat split. constructor.
  - exists (ret tt). repeat split. constructor.
  - exists (ret tt). repeat split. constructor.
  - eexists. split; [| split].
    + rewrite trace_tick_bind, trace_bind. f_equal.
      rewrite trace_for_each_cons, result_for_each_cons, <- app_assoc. f_equal.
      destruct (result (check_types lhs)); [| reflexivity].
      rewrite trace_bind.
      rewrite trace_for_each_cons, result_for_each_cons, <- app_assoc. f_equal.
      destruct (result (check_types rhs)); reflexivity.
    + rewrite result_tick_bind, result_bind, result_for_each_cons.
      destruct (result (check_types lhs)); [| reflexivity].
      rewrite result_bind, result_for_each_cons.
      destruct (result (check_types rhs)); reflexivity.
    + sound_bind; [apply sound_static_type; simpl; auto |].
      sound_bind; [apply sound_static_type; simpl; auto |].
      sound_bind; [apply sound_call_is_subtype_of; exact I |].
      destruct (negb _); [| apply sound_ret].
      sound_bind; [| apply sound_raise; exact I].
      destruct lhs; cbn [get_name];
        first [apply sound_ret | apply sound_raise; exact I].
  - eexists. split; [| split].
    + rewrite trace_tick_bind, trace_bind. f_equal.
      rewrite trace_for_each_cons, result_for_each_cons, <- app_assoc. f_equal.
      destruct (result (check_types receiver)); [| reflexivity].
      rewrite trace_bind. reflexivity.
    + rewrite result_tick_bind, result_bind, result_for_each_cons.
      destruct (result (check_types receiver)); [| reflexivity].
      rewrite result_bind. reflexivity.
    + sound_bind; [apply sound_static_type; simpl; auto |].
      sound_bind; [apply sound_call_method_named; simpl; auto |].
      sound_bind; [apply sound_len_differs; exact I |].
      match goal with |- sound _ _ (if ?b then _ else _) => destruct b end.
      * sound_bind; [apply sound_static_type; simpl; auto |].
        apply sound_raise; exact I.
      * sound_bind; [apply no_check_in_check_argument_match |].
        destruct (negb _); [| apply sound_ret].
        sound_bind; [apply sound_static_type; simpl; auto |].
        sound_bind; [apply sound_names; simpl; auto |].
        sound_bind; [apply sound_names; simpl; auto |].
        apply sound_raise; exact I.
  - eexists. split; [| split].
    + rewrite trace_tick_bind, trace_bind. reflexivity.
    + rewrite result_tick_bind, result_bind. reflexivity.
    + sound_bind; [apply sound_call_is_subtype_of; exact I |].
      destruct (negb _); [apply sound_raise; exact I |].
      sound_bind; [apply sound_get_constructor; simpl; auto |].
      cbv zeta.
      sound_bind; [apply sound_len_differs; exact I |].
      match goal with |- sound _ _ (if ?b then _ else _) => destruct b end.
      * sound_bind; [apply sound_get_constructor; simpl; auto |].
        apply sound_raise; exact I.
      * sound_bind; [apply no_check_in_check_argument_match |].
        destruct (negb _); [| apply sound_ret].
        sound_bind; [apply sound_names; simpl; auto |].
        sound_bind; [apply sound_names; simpl; auto |].
        apply sound_raise; exact I.
Qed.

(** C6.  [check_types] on a node first calls [check_types] on each
    sub-expression, once and in order.  When the check of a sub-expression
    raises after the earlier ones succeeded, the node's check stops there
    with that exception: its calls are the calls of those checks and nothing
    more.  When all succeed, their calls come first and the calls that
    follow, the node's own checks, contain no call of [check_types].  The
    calls of a check begin with the entry of that check, so the log counts
    the checks of the sub-expressions: one each. *)
Theorem sub_expressions_checked_once_and_first e :
  (forall i sub x,
      sub_expressions e !! i = Some sub ->
      result (check_types sub) = Raise x ->
      Forall (fun s => succeeds (check_types s)) (take i (sub_expressions e)) ->
      check_types e =
        (CallCheckTypes e
           :: concat (map (fun s => trace (check_types s))
                        (take (S i) (sub_expressions e))),
         Raise x)) /\
  (Forall (fun s => succeeds (check_types s)) (sub_expressions e) ->
   exists own,
     trace (check_types e) =
       CallCheckTypes e
         :: concat (map (fun s => trace (check_types s)) (sub_expressions e))
         ++ own /\
     Forall not_a_check own) /\
  (forall sub, exists log, trace (check_types sub) = CallCheckTypes sub :: log).
Proof.
  destruct (check_types_prefix e) as (own & Htrace & Hresult & Hown & _).
  split; [| split].
  - intros i sub x Hi Hx Hpre.
    rewrite (M_eta (check_types e)), Htrace, Hresult.
    rewrite (for_each_first_failure _ _ _ _ _ Hi Hx Hpre).
    cbn [result trace fst snd]. rewrite app_nil_r. reflexivity.
  - intros Hall. exists (trace own). split; [| exact Hown].
    rewrite Htrace. rewrite (trace_for_each_succeeds _ _ Hall).
    apply for_each_succeeds in Hall. rewrite Hall. reflexivity.
  - intros sub. destruct sub; cbn [check_types]; rewrite trace_tick_bind;
      eexists; reflexivity.
Qed.

End CheckerTheory.

(** * The checker over an object store *)

Section StoreTheory.
Context {JT : Types} {TM : TypeModel}.

(** ** No computation of the checker writes to the store *)

Lemma preserves_ret {A} (a : A) : Store.preserves_store (Store.ret a).
Proof. intros h. reflexivity. Qed.

Lemma preserves_raise {A} x : Store.preserves_store (Store.raise (A:=A) x).
Proof. intros h. reflexivity. Qed.

Lemma preserves_no_outcome {A} : Store.preserves_store (Store.no_outcome (A:=A)).
Proof. intros h. reflexivity. Qed.

Lemma preserves_read self : Store.preserves_store (Store.read self).
Proof. intros h. unfold Store.read. destruct (h !! self); reflexivity. Qed.

Lemma preserves_bind {A B} (m : Store.ST A) (k : A -> Store.ST B) :
  Store.preserves_store m ->
  (forall a, Store.preserves_store (k a)) ->
  Store.preserves_store (Store.bind m k).
Proof.
  intros Hm Hk h. unfold Store.bind. specialize (Hm h).
  destruct (m h) as [h' [[a | x] |]]; simpl in Hm; subst h'.
  - apply Hk.
  - reflexivity.
  - reflexivity.
Qed.

Create HintDb preserves.

#[local] Hint Resolve preserves_ret preserves_raise preserves_no_outcome
  preserves_read : preserves.

(** A getter: a read, then a field of the object or an [AttributeError]. *)
Ltac preserves_getter :=
  apply preserves_bind; [apply preserves_read |];
  intros [];
  first [apply preserves_ret | apply preserves_raise].

Lemma preserves_get_name self : Store.preserves_store (Store.get_name self).
Proof. unfold Store.get_name. preserves_getter. Qed.

Lemma preserves_get_declared_type self :
  Store.preserves_store (Store.get_declared_type self).
Proof. unfold Store.get_declared_type. preserves_getter. Qed.

Lemma preserves_get_type self : Store.preserves_store (Store.get_type self).
Proof. unfold Store.get_type. preserves_getter. Qed.

Lemma preserves_get_lhs self : Store.preserves_store (Store.get_lhs self).
Proof. unfold Store.get_lhs. preserves_getter. Qed.

Lemma preserves_get_rhs self : Store.preserves_store (Store.get_rhs self).
Proof. unfold Store.get_rhs. preserves_getter. Qed.

Lemma preserves_get_receiver self :
  Store.preserves_store (Store.get_receiver self).
Proof. unfold Store.get_receiver. preserves_getter. Qed.

Lemma preserves_get_method_name self :
  Store.preserves_store (Store.get_method_name self).
Proof. unfold Store.get_method_name. preserves_getter. Qed.

Lemma preserves_get_args self : Store.preserves_store (Store.get_args self).
Proof. unfold Store.get_args. preserves_getter. Qed.

Lemma preserves_get_instantiated_type self :
  Store.preserves_store (Store.get_instantiated_type self).
Proof. unfold Store.get_instantiated_type. preserves_getter. Qed.

Lemma preserves_call_method_named t m :
  Store.preserves_store (Store.call_method_named t m).
Proof.
  unfold Store.call_method_named.
  destruct (method_named t m); auto with preserves.
Qed.

Lemma preserves_get_constructor t :
  Store.preserves_store (Store.get_constructor t).
Proof.
  unfold Store.get_constructor. destruct (constructor t); auto with preserves.
Qed.

Lemma preserves_getitem {A} (xs : list A) i :
  Store.preserves_store (Store.getitem xs i).
Proof. unfold Store.getitem. destruct (xs !! i); auto with preserves. Qed.

#[local] Hint Resolve preserves_get_name preserves_get_declared_type
  preserves_get_type preserves_get_lhs preserves_get_rhs
  preserves_get_receiver preserves_get_method_name preserves_get_args
  preserves_get_instantiated_type preserves_call_method_named
  preserves_get_constructor preserves_getitem : preserves.

Lemma preserves_for_each {A} (f : A -> Store.ST unit) xs :
  (forall x, Store.preserves_store (f x)) ->
  Store.preserves_store (Store.for_each f xs).
Proof.
  intros Hf. induction xs as [| x xs IH]; cbn [Store.for_each].
  - apply preserves_ret.
  - apply preserves_bind; [apply Hf | intros _; exact IH].
Qed.

Lemma preserves_comprehension {A B} (f : A -> Store.ST B) xs :
  (forall x, Store.preserves_store (f x)) ->
  Store.preserves_store (Store.comprehension f xs).
Proof.
  intros Hf. induction xs as [| x xs IH]; cbn [Store.comprehension].
  - apply preserves_ret.
  - apply preserves_bind; [apply Hf | intros y].
    apply preserves_bind; [exact IH | intros ys; apply preserves_ret].
Qed.

(** The steps of a computation, one [bind] after the other. *)
Ltac preserves :=
  repeat first
    [ progress auto with preserves
    | apply preserves_bind; [| intros ?]
    | match goal with
      | |- Store.preserves_store (if ?b then _ else _) => destruct b
      | |- Store.preserves_store (match ?o with
                                  | Store.VariableObject _ _ => _
                                  | _ => _
                                  end) => destruct o
      end ].

Lemma preserves_static_type fuel self :
  Store.preserves_store (Store.static_type fuel self).
Proof.
  revert self. induction fuel as [| fuel IH]; intros self;
    cbn [Store.static_type]; preserves.
Qed.

#[local] Hint Resolve preserves_static_type : preserves.

Lemma preserves_check_argument_match fuel given expected :
  Store.preserves_store (Store.check_argument_match fuel given expected).
Proof.
  unfold Store.check_argument_match.
  generalize (seq 0 (length expected)). intros range.
  induction range as [| i range IH]; cbn [Store.check_argument_match_loop];
    preserves.
Qed.

Lemma preserves_names fuel named_things :
  Store.preserves_store (Store._names fuel named_things).
Proof.
  unfold Store._names. apply preserves_bind; [| intros; apply preserves_ret].
  apply preserves_comprehension. intros [e | t]; cbn [Store.name_of_thing];
    preserves.
Qed.

#[local] Hint Resolve preserves_check_argument_match preserves_names
  : preserves.

Lemma preserves_check_types fuel self :
  Store.preserves_store (Store.check_types fuel self).
Proof.
  revert self. induction fuel as [| fuel IH]; intros self;
    cbn [Store.check_types]; [apply preserves_no_outcome |].
  assert (Hargs : forall args,
             Store.preserves_store
               (Store.for_each (Store.check_types fuel) args))
    by (intros args; apply preserves_for_each, IH).
  preserves.
Qed.

(** ** The store checker computes what the expression checker computes *)

Lemma simulates_ret {A} h (a : A) : Store.simulates h (Store.ret a) (ret a).
Proof. reflexivity. Qed.

Lemma simulates_raise {A} h x :
  Store.simulates h (Store.raise (A:=A) x) (raise x).
Proof. reflexivity. Qed.

Lemma simulates_bind {A B} h (m : Store.ST A) (k : A -> Store.ST B)
    (m' : M A) (k' : A -> M B) :
  Store.simulates h m m' ->
  (forall a, result m' = Return a -> Store.simulates h (k a) (k' a)) ->
  Store.simulates h (Store.bind m k) (bind m' k').
Proof.
  unfold Store.simulates, Store.bind. intros -> Hk.
  rewrite result_bind. destruct (result m') as [a | x]; [| reflexivity].
  apply Hk. reflexivity.
Qed.

(** A step of the store checker alone: an attribute access that returns. *)
Lemma simulates_access {A B} h (g : Store.ST A) v (k : A -> Store.ST B)
    (m' : M B) :
  g h = (h, Some (Return v)) ->
  Store.simulates h (k v) m' ->
  Store.simulates h (Store.bind g k) m'.
Proof. unfold Store.simulates, Store.bind. intros -> H. exact H. Qed.

(** Steps of the expression checker alone: an entry of the call log. *)
Lemma simulates_tick {A} h (m : Store.ST A) ev (k' : unit -> M A) :
  Store.simulates h m (k' tt) -> Store.simulates h m (bind (tick ev) k').
Proof. unfold Store.simulates. rewrite result_tick_bind. auto. Qed.

Lemma simulates_call_is_subtype_of {A} h (m : Store.ST A) s t
    (k' : bool -> M A) :
  Store.simulates h m (k' (is_subtype_of s t)) ->
  Store.simulates h m (bind (call_is_subtype_of s t) k').
Proof.
  unfold Store.simulates. rewrite result_bind, result_call_is_subtype_of. auto.
Qed.

Lemma simulates_len_differs {A} h (m : Store.ST A) expected given
    (k' : bool -> M A) :
  Store.simulates h m (k' (negb (expected =? given))) ->
  Store.simulates h m (bind (len_differs expected given) k').
Proof.
  unfold Store.simulates. rewrite result_bind, result_len_differs. auto.
Qed.

Lemma simulates_call_method_named h t m :
  Store.simulates h (Store.call_method_named t m) (call_method_named t m).
Proof.
  unfold Store.simulates, Store.call_method_named.
  rewrite result_call_method_named. destruct (method_named t m); reflexivity.
Qed.

Lemma simulates_get_constructor h t :
  Store.simulates h (Store.get_constructor t) (get_constructor t).
Proof.
  unfold Store.simulates, Store.get_constructor.
  rewrite result_get_constructor. destruct (constructor t); reflexivity.
Qed.

Lemma simulates_getitem {A} h (xs : list A) i :
  Store.simulates h (Store.getitem xs i) (getitem xs i).
Proof.
  unfold Store.simulates, Store.getitem.
  rewrite result_getitem. destruct (xs !! i); reflexivity.
Qed.

(** Indexing two lists of one length. *)
Lemma simulates_getitem_related {A A' B} h (R : A -> A' -> Prop)
    (xs : list A) (xs' : list A') i
    (k : A -> Store.ST B) (k' : A' -> M B) :
  Forall2 R xs xs' ->
  (forall x x', R x x' -> Store.simulates h (k x) (k' x')) ->
  Store.simulates h (Store.bind (Store.getitem xs i) k)
    (bind (getitem xs' i) k').
Proof.
  intros Hrel Hk. unfold Store.simulates, Store.bind, Store.getitem.
  rewrite result_bind, result_getitem.
  destruct (xs !! i) as [x |] eqn:Hx.
  - destruct (Forall2_lookup_l _ _ _ _ _ Hrel Hx) as (x' & -> & HR).
    apply Hk, HR.
  - apply lookup_ge_None in Hx. rewrite (Forall2_length _ _ _ Hrel) in Hx.
    apply lookup_ge_None in Hx. rewrite Hx. reflexivity.
Qed.

Lemma simulates_for_each {A A'} h
    (f : A -> Store.ST unit) (f' : A' -> M unit) xs xs' :
  Forall2 (fun x x' => Store.simulates h (f x) (f' x')) xs xs' ->
  Store.simulates h (Store.for_each f xs) (for_each f' xs').
Proof.
  induction 1 as [| x x' xs xs' Hx _ IH];
    cbn [Store.for_each for_each].
  - apply simulates_ret.
  - apply simulates_bind; [exact Hx | intros _ _; exact IH].
Qed.

Lemma simulates_comprehension {A A' B} h
    (f : A -> Store.ST B) (f' : A' -> M B) xs xs' :
  Forall2 (fun x x' => Store.simulates h (f x) (f' x')) xs xs' ->
  Store.simulates h (Store.comprehension f xs) (comprehension f' xs').
Proof.
  induction 1 as [| x x' xs xs' Hx _ IH];
    cbn [Store.comprehension comprehension].
  - apply simulates_ret.
  - apply simulates_bind; [exact Hx | intros y _].
    apply simulates_bind; [exact IH | intros ys _]. apply simulates_ret.
Qed.

(** *** Fuel *)

Lemma height_args_le args :
  Forall (fun a => height a <= foldr (fun a n => height a `max` n) 0 args)
    args.
Proof.
  induction args as [| a args IH]; constructor; cbn [foldr]; [lia |].
  eapply Forall_impl; [exact IH |]. cbv beta. intros; lia.
Qed.

(** *** Reading a represented object *)

(** An attribute access on an object that the store holds. *)
Ltac access :=
  unfold Store.simulates, Store.get_name, Store.get_declared_type,
    Store.get_type, Store.get_lhs, Store.get_rhs, Store.get_receiver,
    Store.get_method_name, Store.get_args, Store.get_instantiated_type,
    Store.bind, Store.read;
  match goal with
  | H : ?h !! ?self = Some _ |- context [?h !! ?self] => rewrite H
  end;
  reflexivity.

Lemma simulates_static_type h e :
  forall self fuel,
    Store.represents h self e -> height e <= fuel ->
    Store.simulates h (Store.static_type fuel self) (static_type e).
Proof.
  induction e
    as [n t | v t | | lhs rhs IHl _ | receiver m args IHr _ | T args _]
    using JavaExpression_nested_ind;
    intros self [| fuel] Hrep Hfuel; cbn [height] in Hfuel; try lia;
    inversion Hrep; subst; cbn [Store.static_type static_type];
    apply simulates_tick;
    (eapply simulates_access; [access |]); cbv iota.
  - access.
  - access.
  - apply simulates_ret.
  - eapply simulates_access; [access |].
    apply IHl; [assumption | lia].
  - eapply simulates_access; [access |].
    apply simulates_bind; [apply IHr; [assumption | lia] | intros t _].
    eapply simulates_access; [access |].
    apply simulates_bind; [apply simulates_call_method_named | intros method _].
    apply simulates_ret.
  - access.
Qed.

Lemma simulates_get_name h self e :
  Store.represents h self e ->
  Store.simulates h (Store.get_name self) (get_name e).
Proof. intros Hrep. inversion Hrep; subst; access. Qed.

(** Related argument lists, element by element. *)
Lemma Forall2_represents (P : positive -> JavaExpression -> Prop) h
    args e_args :
  Forall2 (Store.represents h) args e_args ->
  Forall (fun e => forall self, Store.represents h self e -> P self e)
    e_args ->
  Forall2 P args e_args.
Proof.
  induction 1 as [| a e args e_args Ha _ IH]; intros Hall; [constructor |].
  apply Forall_cons in Hall as [He Hall]. constructor; auto.
Qed.

Lemma simulates_static_type_args h fuel args e_args :
  Forall2 (Store.represents h) args e_args ->
  foldr (fun a n => height a `max` n) 0 e_args <= fuel ->
  Forall2 (fun a e =>
             Store.simulates h (Store.static_type fuel a) (static_type e))
    args e_args.
Proof.
  intros Hrep Hfuel. apply (Forall2_represents _ h _ _ Hrep).
  eapply Forall_impl; [apply height_args_le |]. cbv beta.
  intros e He self Hself. apply simulates_static_type; [exact Hself | lia].
Qed.

Lemma simulates_check_argument_match h fuel args e_args expected :
  Forall2 (fun a e =>
             Store.simulates h (Store.static_type fuel a) (static_type e))
    args e_args ->
  Store.simulates h (Store.check_argument_match fuel args expected)
    (check_argument_match e_args expected).
Proof.
  intros Hargs. unfold Store.check_argument_match, check_argument_match.
  apply simulates_tick.
  generalize (seq 0 (length expected)). intros range.
  induction range as [| i range IH];
    cbn [Store.check_argument_match_loop check_argument_match_loop].
  - apply simulates_ret.
  - eapply simulates_getitem_related; [exact Hargs |].
    cbv beta. intros a e Hae.
    apply simulates_bind; [exact Hae | intros given_type _].
    apply simulates_bind; [apply simulates_getitem | intros expected_type _].
    apply simulates_call_is_subtype_of.
    destruct (negb _); [apply simulates_ret | exact IH].
Qed.

Lemma simulates_names_of_types h fuel (types : list JavaType) :
  Store.simulates h (Store._names fuel (map inr types))
    (_names (map inr types)).
Proof.
  unfold Store._names, _names.
  apply simulates_bind; [| intros names _; apply simulates_ret].
  apply simulates_comprehension.
  induction types as [| t types IH]; constructor; [| exact IH].
  apply simulates_ret.
Qed.

Lemma simulates_names_of_expressions h fuel args e_args :
  Forall2 (fun a e =>
             Store.simulates h (Store.static_type fuel a) (static_type e))
    args e_args ->
  Store.simulates h (Store._names fuel (map inl args))
    (_names (map inl e_args)).
Proof.
  intros Hargs. unfold Store._names, _names.
  apply simulates_bind; [| intros names _; apply simulates_ret].
  apply simulates_comprehension.
  induction Hargs as [| a e args e_args Hae _ IH]; constructor; [| exact IH].
  cbn [Store.name_of_thing name_of_thing].
  apply simulates_bind; [exact Hae | intros t _; apply simulates_ret].
Qed.

Lemma simulates_check_types_args h fuel args e_args :
  Forall2 (Store.represents h) args e_args ->
  foldr (fun a n => height a `max` n) 0 e_args <= fuel ->
  Forall (fun e => forall self fuel,
              Store.represents h self e -> height e <= fuel ->
              Store.simulates h (Store.check_types fuel self) (check_types e))
    e_args ->
  Forall2 (fun a e =>
             Store.simulates h (Store.check_types fuel a) (check_types e))
    args e_args.
Proof.
  intros Hrep Hfuel IH. apply (Forall2_represents _ h _ _ Hrep).
  pose proof (height_args_le e_args) as Hh.
  rewrite Forall_forall in IH, Hh. apply Forall_forall.
  intros e He self Hself. apply IH; [exact He | exact Hself |].
  specialize (Hh e He). lia.
Qed.

(** A step of the store checker on a represented object. *)
Ltac access_step := eapply simulates_access; [access |].

Lemma simulates_check_types h e :
  forall self fuel,
    Store.represents h self e -> height e <= fuel ->
    Store.simulates h (Store.check_types fuel self) (check_types e).
Proof.
  induction e
    as [n t | v t | | lhs rhs IHl IHr | receiver m args IHr IHargs
        | T args IHargs]
    using JavaExpression_nested_ind;
    intros self [| fuel] Hrep Hfuel; cbn [height] in Hfuel; try lia;
    inversion Hrep; subst; cbn [Store.check_types check_types];
    apply simulates_tick; access_step; cbv iota;
    try apply simulates_ret.
  - (* assignment *)
    match goal with
    | Hl : Store.represents h ?l lhs, Hr : Store.represents h ?r rhs |- _ =>
        rename l into a_lhs, r into a_rhs
    end.
    assert (Hsl : Store.simulates h (Store.static_type fuel a_lhs)
                    (static_type lhs))
      by (apply simulates_static_type; [assumption | lia]).
    assert (Hsr : Store.simulates h (Store.static_type fuel a_rhs)
                    (static_type rhs))
      by (apply simulates_static_type; [assumption | lia]).
    access_step.
    apply simulates_bind; [apply IHl; [assumption | lia] | intros _ _].
    access_step.
    apply simulates_bind; [apply IHr; [assumption | lia] | intros _ _].
    access_step.
    apply simulates_bind; [exact Hsl | intros lhs_type _].
    access_step.
    apply simulates_bind; [exact Hsr | intros rhs_type _].
    apply simulates_call_is_subtype_of.
    destruct (negb _); [| apply simulates_ret].
    access_step.
    apply simulates_bind; [apply simulates_get_name; assumption |].
    intros lhs_name _. apply simulates_raise.
  - (* method call *)
    match goal with
    | Hr : Store.represents h ?r receiver,
      Ha : Forall2 (Store.represents h) ?l args |- _ =>
        rename r into a_receiver, l into a_args
    end.
    assert (Hlen : length a_args = length args)
      by (eapply Forall2_length; eassumption).
    assert (Hsr : Store.simulates h (Store.static_type fuel a_receiver)
                    (static_type receiver))
      by (apply simulates_static_type; [assumption | lia]).
    assert (Hsa : Forall2 (fun a e =>
                     Store.simulates h (Store.static_type fuel a)
                       (static_type e)) a_args args)
      by (apply simulates_static_type_args; [assumption | lia]).
    assert (Hca : Forall2 (fun a e =>
                     Store.simulates h (Store.check_types fuel a)
                       (check_types e)) a_args args)
      by (eapply simulates_check_types_args; [eassumption | lia | exact IHargs]).
    access_step.
    apply simulates_bind; [apply IHr; [assumption | lia] | intros _ _].
    access_step.
    apply simulates_bind; [apply simulates_for_each, Hca | intros _ _].
    access_step.
    apply simulates_bind; [exact Hsr | intros receiver_type _].
    access_step.
    apply simulates_bind; [apply simulates_call_method_named |].
    intros method _.
    access_step.
    apply simulates_len_differs. rewrite Hlen.
    destruct (negb (_ =? _)).
    + access_step.
      apply simulates_bind; [exact Hsr | intros receiver_type' _].
      access_step. access_step. rewrite Hlen. apply simulates_raise.
    + access_step.
      apply simulates_bind;
        [apply simulates_check_argument_match, Hsa | intros ok _].
      destruct (negb ok); [| apply simulates_ret].
      access_step.
      apply simulates_bind; [exact Hsr | intros receiver_type' _].
      access_step.
      apply simulates_bind;
        [apply simulates_names_of_types | intros expected_names _].
      access_step.
      apply simulates_bind;
        [apply simulates_names_of_expressions, Hsa | intros given_names _].
      apply simulates_raise.
  - (* constructor call *)
    match goal with
    | Ha : Forall2 (Store.represents h) ?l args |- _ => rename l into a_args
    end.
    assert (Hlen : length a_args = length args)
      by (eapply Forall2_length; eassumption).
    assert (Hsa : Forall2 (fun a e =>
                     Store.simulates h (Store.static_type fuel a)
                       (static_type e)) a_args args)
      by (apply simulates_static_type_args; [assumption | lia]).
    assert (Hca : Forall2 (fun a e =>
                     Store.simulates h (Store.check_types fuel a)
                       (check_types e)) a_args args)
      by (eapply simulates_check_types_args; [eassumption | lia | exact IHargs]).
    access_step.
    apply simulates_bind; [apply simulates_for_each, Hca | intros _ _].
    access_step.
    apply simulates_call_is_subtype_of.
    destruct (negb _).
    + access_step. apply simulates_raise.
    + access_step.
      apply simulates_bind; [apply simulates_get_constructor | intros c _].
      cbv zeta. access_step.
      apply simulates_len_differs. rewrite Hlen.
      destruct (negb (_ =? _)).
      * access_step.
        apply simulates_bind; [apply simulates_get_constructor | intros c' _].
        access_step. rewrite Hlen. apply simulates_raise.
      * access_step.
        apply simulates_bind;
          [apply simulates_check_argument_match, Hsa | intros ok _].
        destruct (negb ok); [| apply simulates_ret].
        access_step.
        apply simulates_bind;
          [apply simulates_names_of_types | intros expected_names _].
        access_step.
        apply simulates_bind;
          [apply simulates_names_of_expressions, Hsa | intros given_names _].
        apply simulates_raise.
Qed.

(** C8.  [check_types] writes to no object: whatever the store, the
    address and the fuel, the store after the call is the store before it,
    and a second call on the store that the first one leaves gives the
    outcome of the first and leaves the same store again.  On a store that
    holds an expression, with fuel for its height, that outcome is the
    outcome of the check of the expression. *)
Theorem check_types_preserves_store :
  (forall fuel self h,
      (Store.check_types fuel self h).1 = h /\
      Store.check_types fuel self (Store.check_types fuel self h).1
      = Store.check_types fuel self h) /\
  (forall h self e fuel,
      Store.represents h self e -> height e <= fuel ->
      Store.check_types fuel self h = (h, Some (result (check_types e)))).
Proof.
  split.
  - intros fuel self h.
    pose proof (preserves_check_types fuel self h) as Hsame.
    split; [exact Hsame |]. rewrite Hsame. reflexivity.
  - intros h self e fuel Hrep Hfuel.
    apply simulates_check_types; assumption.
Qed.

End StoreTheory.

(** * Method lookup in the concrete type model *)

Section SpecTypesTheory.
Import SpecTypes.

Lemma search_fails_iff (ct : gmap string class_decl) m classes :
  search ct m classes = None <->
  Forall (fun c => ct !! c ≫= declares m = None) classes.
Proof.
  induction classes as [| c classes IH]; cbn [search].
  - split; [constructor | reflexivity].
  - rewrite Forall_cons. destruct (ct !! c ≫= declares m) as [method |].
    + split; [discriminate | intros [H _]; discriminate H].
    + rewrite IH. tauto.
Qed.

(** The lookup on an object type raises exactly when no class of the
    superclass chain declares the name. *)
Lemma spec_method_named_fails_iff (ct : gmap string class_decl) c m :
  (exists msg, spec_method_named ct (Class c) m = inl msg) <->
  Forall (fun d => ct !! d ≫= declares m = None) (chain ct c).
Proof.
  rewrite <- search_fails_iff. cbn [spec_method_named].
  destruct (search ct m (chain ct c)) as [method |].
  - split; [intros [msg H]; discriminate H | discriminate].
  - split; [reflexivity | eauto].
Qed.

(** A call of a method that the chain of the receiver's class does not
    declare: the check raises [NoSuchJavaMethod], whatever the arguments. *)
Lemma undeclared_method_raises (ct : gmap string class_decl)
    (receiver : JavaExpression) c m args :
  succeeds (check_types (TM := model ct) receiver) ->
  Forall (fun a => succeeds (check_types (TM := model ct) a)) args ->
  has_static_type (TM := model ct) receiver (Class c) ->
  Forall (fun d => ct !! d ≫= declares m = None) (chain ct c) ->
  exists msg,
    result (check_types (TM := model ct) (JavaMethodCall receiver m args))
    = Raise (NoSuchJavaMethod msg).
Proof.
  intros Hreceiver Hargs Hty Habsent.
  apply spec_method_named_fails_iff in Habsent as [msg Hmsg].
  destruct (all_have_static_types args Hargs) as [given_types Hstatic].
  exists msg.
  rewrite (result_check_method_call _ _ _ _ _ Hreceiver Hargs Hty Hstatic).
  cbn [method_named model]. rewrite Hmsg. reflexivity.
Qed.

End SpecTypesTheory.

(** * The theorems at work on the example class table *)

Section Examples.
Import SpecTypes.

(** [foo.bar(null)]: one argument for two parameters, and of a type that
    no parameter accepts; [new Foo()]: no argument for one parameter. *)
Lemma argument_count_before_argument_types_witness :
  result (check_types foo_bar_null) =
    Raise (JavaArgumentCountError
             "Wrong number of arguments for Foo.bar(): expected 2, got 1") /\
  result (check_types new_Foo_of_nothing) =
    Raise (JavaArgumentCountError
             "Wrong number of arguments for Foo constructor: expected 1, got 0").
Proof.
  destruct (argument_count_before_argument_types (TM := zoo_model))
    as [Hcall Hnew].
  split.
  - refine (Hcall foo "bar"%string [JavaNullLiteral] FOO bar _ _ _ _ _).
    + reflexivity.
    + repeat constructor.
    + reflexivity.
    + vm_compute. reflexivity.
    + simpl. lia.
  - refine (Hnew FOO [] new_Foo _ _ _ _).
    + constructor.
    + vm_compute. reflexivity.
    + vm_compute. reflexivity.
    + simpl. lia.
Defined.

(** [Animal a = new Dog()] checks; [Dog d = new Animal()] does not. *)
Lemma assignment_checks_subtype_witness :
  result (check_types animal_gets_dog) = Return tt /\
  result (check_types dog_gets_animal) =
    Raise (JavaTypeMismatchError
             "Cannot assign Animal to variable d of type Dog").
Proof.
  split.
  - destruct (assignment_checks_subtype (TM := zoo_model) "a" ANIMAL
                new_Dog)
      as (rhs_type & Hty & _ & _ & Hsub).
    + vm_compute. reflexivity.
    + injection Hty as <-. apply Hsub. vm_compute. reflexivity.
  - destruct (assignment_checks_subtype (TM := zoo_model) "d" DOG
                new_Animal)
      as (rhs_type & Hty & _ & Hnot & _).
    + vm_compute. reflexivity.
    + injection Hty as <-. apply Hnot. vm_compute. reflexivity.
Defined.

(** [foo.bar(1, null)]: the second argument does not match, and the one
    error names both lists; [new Foo(1)] likewise. *)
Lemma argument_types_all_or_nothing_witness :
  result (check_types foo_bar_one_null) =
    Raise (JavaTypeMismatchError
             "Foo.bar() expects arguments of type (int, int), but got (int, null)")
  /\
  result (check_types new_Foo_of_one) =
    Raise (JavaTypeMismatchError
             "Foo constructor expects arguments of type (Animal), but got (int)").
Proof.
  destruct (argument_types_all_or_nothing (TM := zoo_model))
    as [Hcall Hnew].
  split.
  - destruct (Hcall foo "bar"%string [one; JavaNullLiteral] FOO bar)
      as (given_types & Hgiven & _ & Hmismatch & _).
    + reflexivity.
    + repeat constructor.
    + reflexivity.
    + vm_compute. reflexivity.
    + reflexivity.
    + apply Forall2_cons_inv_l in Hgiven as (t1 & ts & [= <-] & Hgiven & ->).
      apply Forall2_cons_inv_l in Hgiven as (t2 & ts' & [= <-] & Hgiven & ->).
      apply Forall2_nil_inv_l in Hgiven as ->.
      apply Hmismatch.
      exists 1, JavaNullLiteral, NullType, INT.
      repeat split; reflexivity.
  - destruct (Hnew FOO [one] new_Foo)
      as (given_types & Hgiven & _ & Hmismatch & _).
    + repeat constructor.
    + vm_compute. reflexivity.
    + vm_compute. reflexivity.
    + reflexivity.
    + apply Forall2_cons_inv_l in Hgiven as (t1 & ts & [= <-] & Hgiven & ->).
      apply Forall2_nil_inv_l in Hgiven as ->.
      apply Hmismatch.
      exists 0, one, INT, ANIMAL.
      repeat split; reflexivity.
Defined.

(** [new int()]: a primitive type, and no argument at all. *)
Lemma illegal_instantiation_checked_first_witness :
  check_types new_int =
    ([CallCheckTypes new_int;
      CallIsSubtypeOf INT (Class "Object")],
     Raise (JavaIllegalInstantiationError "Type int is not instantiable")).
Proof.
  destruct (illegal_instantiation_checked_first (TM := zoo_model) INT [])
    as (_ & Hresult & rest & Htrace & Hrest & _).
  - constructor.
  - unfold new_int.
    rewrite (M_eta (check_types _)), Htrace, Hresult, Hrest
      by (vm_compute; reflexivity).
    reflexivity.
Defined.

(** [d.bark(null)]: no class in the chain of [Dog] declares [bark]. *)
Lemma method_lookup_before_argument_count_witness :
  result (check_types dog_bark) =
    Raise (NoSuchJavaMethod "Dog has no method named bark").
Proof.
  destruct (method_lookup_before_argument_count (TM := zoo_model)
              dog "bark"%string [JavaNullLiteral] DOG)
    as (Hfails & _).
  - reflexivity.
  - repeat constructor.
  - reflexivity.
  - apply (Hfails "Dog has no method named bark"%string).
    vm_compute. reflexivity.
Defined.

(** [foo.bar(d.bark(null))]: the error of the argument is the one reported,
    not the wrong number of arguments of [bar]. *)
Lemma sub_expressions_checked_once_and_first_witness :
  result (check_types foo_bar_bark) =
    Raise (NoSuchJavaMethod "Dog has no method named bark").
Proof.
  destruct (sub_expressions_checked_once_and_first (TM := zoo_model)
              foo_bar_bark) as (Hfails & _).
  rewrite (Hfails 1 dog_bark
             (NoSuchJavaMethod "Dog has no method named bark")).
  - reflexivity.
  - reflexivity.
  - vm_compute. reflexivity.
  - repeat constructor.
Defined.

(** [foo.bar(null)] has the static type [int], the return type of [bar],
    although its check fails on the number of arguments. *)
Lemma method_call_static_type_only_looks_up_witness :
  result (static_type foo_bar_null) = Return INT /\
  result (check_types foo_bar_null) =
    Raise (JavaArgumentCountError
             "Wrong number of arguments for Foo.bar(): expected 2, got 1").
Proof.
  split; [| vm_compute; reflexivity].
  destruct (method_call_static_type_only_looks_up (TM := zoo_model)
              foo "bar"%string [JavaNullLiteral] FOO)
    as (Hfound & _ & _).
  - reflexivity.
  - apply (Hfound bar). vm_compute. reflexivity.
Defined.

(** [foo.bar(d, d)] with one object for both arguments: the check raises,
    and the store is as before. *)
Lemma check_types_preserves_store_witness :
  Store.check_types 2 3 shared_store =
    (shared_store,
     Some (Raise (JavaTypeMismatchError
                    "Foo.bar() expects arguments of type (int, int), but got (Dog, Dog)"))).
Proof.
  destruct (check_types_preserves_store (TM := zoo_model)) as [_ Hsim].
  rewrite (Hsim shared_store 3%positive foo_bar_dog_dog 2).
  - vm_compute. reflexivity.
  - eapply Store.represents_method_call.
    + vm_compute. reflexivity.
    + apply Store.represents_variable. vm_compute. reflexivity.
    + repeat constructor; vm_compute; reflexivity.
  - vm_compute. lia.
Defined.

(** ** The scenarios of the specification *)

(** [new Dog()] has the static type [Dog]; a variable of type [Animal]
    takes it; [speak] is found on [Animal] for a receiver of type [Dog] and
    returns [String]. *)
Example scenario_animal_dog :
  result (static_type new_Dog) = Return DOG /\
  result (check_types animal_gets_dog) = Return tt /\
  check_types (JavaMethodCall dog "speak" []) =
    ([CallCheckTypes (JavaMethodCall dog "speak" []); CallCheckTypes dog;
      CallStaticType dog; CallMethodNamed DOG "speak"; CompareLen 0 0;
      CallCheckArgumentMatch [] []],
     Return tt) /\
  result (static_type (JavaMethodCall dog "speak" [])) = Return STRING.
Proof. vm_compute. repeat split. Qed.

(** [null] goes into a variable of type [Dog] and not into one of type
    [int]. *)
Example scenario_null :
  result (check_types (JavaAssignment dog JavaNullLiteral)) = Return tt /\
  result (check_types (JavaAssignment (JavaVariable "x" INT) JavaNullLiteral))
  = Raise (JavaTypeMismatchError "Cannot assign null to variable x of type int").
Proof. vm_compute. repeat split. Qed.

(** [foo.bar(1)] for [bar(int, int)]. *)
Example scenario_argument_count :
  result (check_types (JavaMethodCall foo "bar" [one])) =
    Raise (JavaArgumentCountError
             "Wrong number of arguments for Foo.bar(): expected 2, got 1").
Proof. vm_compute. reflexivity. Qed.

(** The calls of [foo.bar(1, null)]: the two lengths are compared, then
    each position is read from both lists, and the second position ends
    the comparison. *)
Example calls_of_foo_bar_one_null :
  trace (check_types foo_bar_one_null) =
    [CallCheckTypes foo_bar_one_null; CallCheckTypes foo; CallCheckTypes one;
     CallCheckTypes JavaNullLiteral; CallStaticType foo;
     CallMethodNamed FOO "bar"; CompareLen 2 2;
     CallCheckArgumentMatch [one; JavaNullLiteral] [INT; INT];
     GetItem 2 0; CallStaticType one; GetItem 2 0; CallIsSubtypeOf INT INT;
     GetItem 2 1; CallStaticType JavaNullLiteral; GetItem 2 1;
     CallIsSubtypeOf NullType INT;
     CallStaticType foo; CallStaticType one; CallStaticType JavaNullLiteral].
Proof. vm_compute. reflexivity. Qed.

(** Called on lists of different lengths, which [check_types] never does,
    [check_argument_match] would index out of range. *)
Example check_argument_match_out_of_range :
  result (check_argument_match [one] [INT; INT]) =
    Raise (IndexError "index out of range").
Proof. vm_compute. reflexivity. Qed.

(** The left side of an assignment is a [JavaVariable]; on any other
    expression the message of a mismatch cannot be built. *)
Example assignment_to_a_literal :
  result (check_types (JavaAssignment one JavaNullLiteral)) =
    Raise (AttributeError "'JavaLiteral' object has no attribute 'name'").
Proof. vm_compute. reflexivity. Qed.

(** On a store with a cycle no fuel is enough, and the store is still as
    before. *)
Example check_types_cyclic_store :
  Store.check_types 50 2 cyclic_store = (cyclic_store, None).
Proof. vm_compute. reflexivity. Qed.

End Examples.

(** * Further properties of the checker *)

Section TraversalTheory.
Context {JT : Types} {TM : TypeModel}.

(** ** Nodes *)

Lemma Forall_concat_map {A B} (P : B -> Prop) (f : A -> list B) l :
  Forall P (concat (map f l)) <-> Forall (fun x => Forall P (f x)) l.
Proof.
  induction l as [| x l IH]; cbn [map concat].
  - split; constructor.
  - rewrite Forall_app, Forall_cons, IH. tauto.
Qed.

Lemma nodes_sub_expressions e :
  nodes e = e :: concat (map nodes (sub_expressions e)).
Proof.
  destruct e; cbn [nodes sub_expressions map concat];
    rewrite ?app_nil_r; reflexivity.
Qed.

(** A check that succeeds has checked its sub-expressions with success. *)
Lemma succeeds_sub_expressions e :
  succeeds (check_types e) ->
  Forall (fun s => succeeds (check_types s)) (sub_expressions e).
Proof.
  intros H. apply for_each_succeeds. unfold succeeds in *.
  destruct (check_types_prefix e) as (own & _ & Hresult & _).
  rewrite Hresult in H.
  destruct (result (for_each check_types (sub_expressions e))) as [[] | x];
    [reflexivity | discriminate H].
Qed.

(** What the nested induction gives for the list of sub-expressions. *)
Lemma sub_expressions_ind (P : JavaExpression -> Prop) :
  (forall e, Forall P (sub_expressions e) -> P e) -> forall e, P e.
Proof.
  intros H e.
  induction e using JavaExpression_nested_ind; apply H;
    cbn [sub_expressions]; repeat constructor; assumption.
Qed.

(** X1.  When the check of an expression succeeds, the check of every
    node of the expression succeeds, and [static_type] returns a type on
    every node. *)
Theorem checked_expression_nodes e :
  succeeds (check_types e) ->
  Forall (fun d => succeeds (check_types d) /\ exists t, has_static_type d t)
    (nodes e).
Proof.
  induction e as [e IH] using sub_expressions_ind. intros He.
  rewrite nodes_sub_expressions. constructor.
  - split; [exact He | apply check_succeeds_static_type, He].
  - apply Forall_concat_map.
    pose proof (succeeds_sub_expressions e He) as Hsubs.
    rewrite Forall_forall in IH, Hsubs. apply Forall_forall.
    intros s Hs. apply IH; [exact Hs | apply Hsubs, Hs].
Qed.

(** ** The order of the checks *)

Lemma checked_nodes_cons ev log :
  checked_nodes (ev :: log) =
  match ev with
  | CallCheckTypes e => e :: checked_nodes log
  | _ => checked_nodes log
  end.
Proof. destruct ev; reflexivity. Qed.

Lemma checked_nodes_app log log' :
  checked_nodes (log ++ log') = checked_nodes log ++ checked_nodes log'.
Proof. apply omap_app. Qed.

Lemma checked_nodes_without_check log :
  Forall not_a_check log -> checked_nodes log = [].
Proof.
  induction 1 as [| ev log Hev _ IH]; [reflexivity |].
  rewrite checked_nodes_cons, IH.
  destruct ev; try reflexivity. destruct Hev.
Qed.

Lemma checked_nodes_check_types e :
  checked_nodes (trace (check_types e)) =
  e :: checked_nodes (trace (for_each check_types (sub_expressions e))).
Proof.
  destruct (check_types_prefix e) as (own & Htrace & _ & Hown & _).
  rewrite Htrace, checked_nodes_cons, checked_nodes_app. f_equal.
  destruct (result (for_each check_types (sub_expressions e))).
  - rewrite (checked_nodes_without_check _ Hown). apply app_nil_r.
  - apply app_nil_r.
Qed.

Lemma checked_nodes_for_each subs :
  Forall (fun s =>
            checked_nodes (trace (check_types s)) `prefix_of` nodes s /\
            (succeeds (check_types s) ->
             checked_nodes (trace (check_types s)) = nodes s)) subs ->
  checked_nodes (trace (for_each check_types subs))
    `prefix_of` concat (map nodes subs) /\
  (succeeds (for_each check_types subs) ->
   checked_nodes (trace (for_each check_types subs))
   = concat (map nodes subs)).
Proof.
  induction 1 as [| s subs [Hpre Heq] _ [IHpre IHeq]].
  - split; [apply prefix_nil | reflexivity].
  - unfold succeeds in *.
    rewrite trace_for_each_cons, result_for_each_cons, checked_nodes_app.
    cbn [map concat].
    destruct (result (check_types s)) as [[] | x].
    + rewrite (Heq eq_refl). split.
      * apply prefix_app, IHpre.
      * intros Hrest. rewrite (IHeq Hrest). reflexivity.
    + rewrite app_nil_r. split.
      * apply prefix_app_r, Hpre.
      * discriminate.
Qed.

(** X2.  The calls of [check_types] that a check makes go through the
    nodes of the expression in order, each node before its
    sub-expressions and once: the expressions checked are a prefix of the
    list of nodes, and the whole list when the check succeeds. *)
Theorem check_types_visits_nodes_in_order e :
  checked_nodes (trace (check_types e)) `prefix_of` nodes e /\
  (succeeds (check_types e) ->
   checked_nodes (trace (check_types e)) = nodes e).
Proof.
  induction e as [e IH] using sub_expressions_ind.
  rewrite checked_nodes_check_types, nodes_sub_expressions.
  destruct (checked_nodes_for_each _ IH) as [Hpre Heq].
  split.
  - apply prefix_cons, Hpre.
  - intros He. rewrite Heq; [reflexivity |].
    apply for_each_succeeds, succeeds_sub_expressions, He.
Qed.

(** ** What [static_type] calls and raises *)

(** X3.  On every expression [static_type] calls nothing but
    [static_type] and [method_named], and the only exception it raises is
    the [NoSuchJavaMethod] of a lookup. *)
Theorem static_type_only_fails_in_lookup e :
  Forall static_type_call (trace (static_type e)) /\
  forall x, result (static_type e) = Raise x ->
            exists msg, x = NoSuchJavaMethod msg.
Proof.
  destruct (sound_static_type static_type_call is_lookup_failure e)
    as [Hlog Hexn]; try (intros; exact I).
  split; [exact Hlog |].
  intros x Hx. specialize (Hexn x Hx).
  destruct x; try destruct Hexn. eauto.
Qed.

End TraversalTheory.

Section OutcomeTheory.
Context {JT : Types} {TM : TypeModel}.

(** ** When a check succeeds *)

(** X5.  The check of an assignment succeeds exactly when the checks of
    both sides succeed and the static type of the right side is a subtype
    of the static type of the left side, whatever expression the left side
    is. *)
Theorem assignment_succeeds_iff lhs rhs :
  succeeds (check_types (JavaAssignment lhs rhs)) <->
  succeeds (check_types lhs) /\ succeeds (check_types rhs) /\
  exists lhs_type rhs_type,
    has_static_type lhs lhs_type /\ has_static_type rhs rhs_type /\
    is_subtype_of rhs_type lhs_type = true.
Proof.
  split.
  - intros H.
    pose proof (succeeds_sub_expressions _ H) as Hsubs.
    cbn [sub_expressions] in Hsubs.
    apply Forall_cons in Hsubs as [Hlhs Hsubs].
    apply Forall_cons in Hsubs as [Hrhs _].
    destruct (check_succeeds_static_type lhs Hlhs) as [lhs_type Hlt].
    destruct (check_succeeds_static_type rhs Hrhs) as [rhs_type Hrt].
    split; [exact Hlhs | split; [exact Hrhs |]].
    exists lhs_type, rhs_type. split; [exact Hlt | split; [exact Hrt |]].
    unfold succeeds in H.
    rewrite (result_check_assignment _ _ _ _ Hlhs Hrhs Hlt Hrt) in H.
    destruct (is_subtype_of rhs_type lhs_type); [reflexivity |].
    cbn [negb] in H. destruct (result (get_name lhs)); discriminate H.
  - intros (Hlhs & Hrhs & lhs_type & rhs_type & Hlt & Hrt & Hsub).
    unfold succeeds.
    rewrite (result_check_assignment _ _ _ _ Hlhs Hrhs Hlt Hrt), Hsub.
    reflexivity.
Qed.

(** X6.  The check of a method call succeeds exactly when the checks of
    the receiver and of the arguments succeed, [method_named] finds the
    method on the static type of the receiver, the number of arguments is
    the number of parameter types, and at no position the static type of
    the argument fails to be a subtype of the parameter type. *)
Theorem method_call_succeeds_iff receiver method_name args :
  succeeds (check_types (JavaMethodCall receiver method_name args)) <->
  succeeds (check_types receiver) /\
  Forall (fun a => succeeds (check_types a)) args /\
  exists receiver_type method,
    has_static_type receiver receiver_type /\
    method_named receiver_type method_name = inr method /\
    length args = length (JavaMethod.parameter_types method) /\
    ~ argument_mismatch args (JavaMethod.parameter_types method).
Proof.
  split.
  - intros H.
    pose proof (succeeds_sub_expressions _ H) as Hsubs.
    cbn [sub_expressions] in Hsubs.
    apply Forall_cons in Hsubs as [Hreceiver Hargs].
    destruct (check_succeeds_static_type receiver Hreceiver)
      as [receiver_type Hty].
    destruct (all_have_static_types args Hargs) as [given_types Hstatic].
    split; [exact Hreceiver | split; [exact Hargs |]].
    exists receiver_type. unfold succeeds in H.
    rewrite (result_check_method_call _ _ _ _ _ Hreceiver Hargs Hty Hstatic)
      in H.
    destruct (method_named receiver_type method_name) as [msg | method];
      [discriminate H |].
    exists method. split; [exact Hty | split; [reflexivity |]].
    cbv zeta in H.
    destruct (negb (_ =? _)) eqn:Hlen; [discriminate H |].
    apply negb_false_iff, Nat.eqb_eq in Hlen. symmetry in Hlen.
    split; [exact Hlen |].
    match type of H with
    | context [Raise (JavaTypeMismatchError ?m)] =>
        destruct (argument_types_verdict args given_types
                    (JavaMethod.parameter_types method)
                    (JavaTypeMismatchError m) Hstatic Hlen)
          as [[_ Hraise] | [Hnot _]]
    end.
    + rewrite Hraise in H. discriminate H.
    + exact Hnot.
  - intros (Hreceiver & Hargs & receiver_type & method & Hty & Hm & Hlen
            & Hnot).
    destruct (all_have_static_types args Hargs) as [given_types Hstatic].
    unfold succeeds.
    rewrite (result_check_method_call _ _ _ _ _ Hreceiver Hargs Hty Hstatic).
    rewrite Hm. cbv zeta. rewrite (eq_not_differs _ _ Hlen).
    match goal with
    | |- context [Raise (JavaTypeMismatchError ?m)] =>
        destruct (argument_types_verdict args given_types
                    (JavaMethod.parameter_types method)
                    (JavaTypeMismatchError m) Hstatic Hlen)
          as [[Hmis _] | [_ Hreturn]]
    end.
    + destruct (Hnot Hmis).
    + exact Hreturn.
Qed.

(** X7.  The check of a constructor call succeeds exactly when the checks
    of the arguments succeed, the instantiated type is a subtype of
    [OBJECT] and has a constructor, the number of arguments is the number
    of its parameter types, and at no position the static type of the
    argument fails to be a subtype of the parameter type. *)
Theorem constructor_call_succeeds_iff instantiated_type args :
  succeeds (check_types (JavaConstructorCall instantiated_type args)) <->
  Forall (fun a => succeeds (check_types a)) args /\
  is_subtype_of instantiated_type OBJECT = true /\
  exists c,
    constructor instantiated_type = Some c /\
    length args = length (JavaConstructor.parameter_types c) /\
    ~ argument_mismatch args (JavaConstructor.parameter_types c).
Proof.
  split.
  - intros H.
    pose proof (succeeds_sub_expressions _ H) as Hargs.
    cbn [sub_expressions] in Hargs.
    destruct (all_have_static_types args Hargs) as [given_types Hstatic].
    split; [exact Hargs |]. unfold succeeds in H.
    rewrite (result_check_constructor_call _ _ _ Hargs Hstatic) in H.
    destruct (is_subtype_of instantiated_type OBJECT); [| discriminate H].
    split; [reflexivity |]. cbn [negb] in H.
    destruct (constructor instantiated_type) as [c |]; [| discriminate H].
    exists c. split; [reflexivity |]. cbv zeta in H.
    destruct (negb (_ =? _)) eqn:Hlen; [discriminate H |].
    apply negb_false_iff, Nat.eqb_eq in Hlen. symmetry in Hlen.
    split; [exact Hlen |].
    match type of H with
    | context [Raise (JavaTypeMismatchError ?m)] =>
        destruct (argument_types_verdict args given_types
                    (JavaConstructor.parameter_types c)
                    (JavaTypeMismatchError m) Hstatic Hlen)
          as [[_ Hraise] | [Hnot _]]
    end.
    + rewrite Hraise in H. discriminate H.
    + exact Hnot.
  - intros (Hargs & Hsub & c & Hc & Hlen & Hnot).
    destruct (all_have_static_types args Hargs) as [given_types Hstatic].
    unfold succeeds.
    rewrite (result_check_constructor_call _ _ _ Hargs Hstatic).
    rewrite Hsub, Hc. cbn [negb]. cbv zeta.
    rewrite (eq_not_differs _ _ Hlen).
    match goal with
    | |- context [Raise (JavaTypeMismatchError ?m)] =>
        destruct (argument_types_verdict args given_types
                    (JavaConstructor.parameter_types c)
                    (JavaTypeMismatchError m) Hstatic Hlen)
          as [[Hmis _] | [_ Hreturn]]
    end.
    + destruct (Hnot Hmis).
    + exact Hreturn.
Qed.

(** ** The exceptions of a check *)

(** X8.  On an assignment whose left side is not a [JavaVariable], with
    both sides checked, a right side whose static type is not a subtype of
    that of the left side makes [check_types] raise [AttributeError], not
    [JavaTypeMismatchError]: the message of the mismatch reads the
    attribute [name] of the left side. *)
Theorem assignment_to_non_variable lhs rhs lhs_type rhs_type :
  (forall variable declared_type, lhs <> JavaVariable variable declared_type) ->
  succeeds (check_types lhs) ->
  succeeds (check_types rhs) ->
  has_static_type lhs lhs_type ->
  has_static_type rhs rhs_type ->
  is_subtype_of rhs_type lhs_type = false ->
  exists msg,
    result (check_types (JavaAssignment lhs rhs)) = Raise (AttributeError msg).
Proof.
  intros Hnot Hlhs Hrhs Hlt Hrt Hsub.
  rewrite (result_check_assignment _ _ _ _ Hlhs Hrhs Hlt Hrt), Hsub.
  cbn [negb].
  destruct lhs; cbn [get_name result raise snd];
    try (eexists; reflexivity).
  destruct (Hnot _ _ eq_refl).
Qed.

Lemma proper_sub_expressions e :
  proper e -> proper_node e /\ Forall proper (sub_expressions e).
Proof.
  unfold proper. rewrite nodes_sub_expressions. intros H.
  apply Forall_cons in H as [Hnode Hrest]. split; [exact Hnode |].
  apply Forall_concat_map in Hrest. exact Hrest.
Qed.

(** X4.  On an expression in which the left side of every assignment is a
    [JavaVariable] and every instantiated type that is a subtype of
    [OBJECT] has a constructor, every exception that [check_types] raises
    is a [JavaTypeError]. *)
Theorem proper_check_raises_type_errors e :
  proper e ->
  forall x, result (check_types e) = Raise x -> is_JavaTypeError x = true.
Proof.
  induction e as [e IH] using sub_expressions_ind.
  intros Hproper x Hx.
  apply proper_sub_expressions in Hproper as [Hnode Hsubs].
  destruct (check_types_prefix e) as (own & _ & Hresult & _).
  destruct (result (for_each check_types (sub_expressions e)))
    as [[] | y] eqn:Hloop.
  - clear Hresult IH Hsubs.
    apply for_each_succeeds in Hloop.
    destruct e as [n t | v t | | lhs rhs | receiver m args | T args];
      cbn [sub_expressions] in Hloop; try discriminate Hx.
    + apply Forall_cons in Hloop as [Hlhs Hloop].
      apply Forall_cons in Hloop as [Hrhs _].
      destruct (check_succeeds_static_type lhs Hlhs) as [lhs_type Hlt].
      destruct (check_succeeds_static_type rhs Hrhs) as [rhs_type Hrt].
      rewrite (result_check_assignment _ _ _ _ Hlhs Hrhs Hlt Hrt) in Hx.
      destruct (negb _); [| discriminate Hx].
      destruct lhs; try destruct Hnode.
      cbn [get_name result ret snd] in Hx. injection Hx as <-. reflexivity.
    + apply Forall_cons in Hloop as [Hreceiver Hargs].
      destruct (check_succeeds_static_type receiver Hreceiver)
        as [receiver_type Hty].
      destruct (all_have_static_types args Hargs) as [given_types Hstatic].
      rewrite (result_check_method_call _ _ _ _ _ Hreceiver Hargs Hty Hstatic)
        in Hx.
      destruct (method_named receiver_type m) as [msg | method];
        [injection Hx as <-; reflexivity |].
      cbv zeta in Hx.
      destruct (negb (_ =? _)) eqn:Hlen; [injection Hx as <-; reflexivity |].
      apply negb_false_iff, Nat.eqb_eq in Hlen. symmetry in Hlen.
      destruct (result_check_argument_match _ _ _ Hstatic Hlen)
        as (b & Hb & _).
      rewrite Hb in Hx.
      destruct b; [discriminate Hx | injection Hx as <-; reflexivity].
    + destruct (all_have_static_types args Hloop) as [given_types Hstatic].
      rewrite (result_check_constructor_call _ _ _ Hloop Hstatic) in Hx.
      destruct (is_subtype_of T OBJECT) eqn:Hsub; cbn [negb] in Hx;
        [| injection Hx as <-; reflexivity].
      cbn [proper_node] in Hnode. specialize (Hnode Hsub).
      destruct (constructor T) as [c |]; [| destruct (Hnode eq_refl)].
      cbv zeta in Hx.
      destruct (negb (_ =? _)) eqn:Hlen; [injection Hx as <-; reflexivity |].
      apply negb_false_iff, Nat.eqb_eq in Hlen. symmetry in Hlen.
      destruct (result_check_argument_match _ _ _ Hstatic Hlen)
        as (b & Hb & _).
      rewrite Hb in Hx.
      destruct b; [discriminate Hx | injection Hx as <-; reflexivity].
  - rewrite Hresult in Hx. injection Hx as ->.
    destruct (for_each_raises _ _ _ Hloop) as (i & sub & Hi & Hsub & _).
    rewrite Forall_forall in IH, Hsubs.
    apply list_elem_of_lookup_2 in Hi.
    apply (IH sub Hi (Hsubs sub Hi) x Hsub).
Qed.

End OutcomeTheory.

Section HelperTheory.
Context {JT : Types} {TM : TypeModel}.

(** ** [check_argument_match] on its own *)

(** One round of the loop at a position that compares. *)
Lemma check_argument_match_loop_step verdict given expected i range :
  position_compares verdict given expected i ->
  result (check_argument_match_loop given expected (i :: range)) =
  if verdict then result (check_argument_match_loop given expected range)
  else Return false.
Proof.
  intros (arg & given_type & expected_type & Harg & Hty & Hexp & Hsub).
  unfold has_static_type in Hty. cbn [check_argument_match_loop].
  rewrite result_bind, result_getitem, Harg.
  rewrite result_bind, Hty.
  rewrite result_bind, result_getitem, Hexp.
  rewrite result_bind, result_call_is_subtype_of, Hsub.
  destruct verdict; reflexivity.
Qed.

Lemma check_argument_match_loop_first_mismatch given expected i m :
  forall k,
    k <= i < k + m ->
    (forall j, k <= j < i -> position_compares true given expected j) ->
    position_compares false given expected i ->
    result (check_argument_match_loop given expected (seq k m)) = Return false.
Proof.
  induction m as [| m IH]; intros k Hk Hbefore Hat; [lia |].
  cbn [seq]. destruct (decide (k = i)) as [-> | Hne].
  - rewrite (check_argument_match_loop_step false); auto.
  - rewrite (check_argument_match_loop_step true) by (apply Hbefore; lia).
    apply IH; [lia | intros j Hj; apply Hbefore; lia | exact Hat].
Qed.

(** X9.  [check_argument_match] stops at the first position whose given
    type is not a subtype of the expected type and returns [False]: what
    comes after that position plays no part, be it an expression whose
    [static_type] raises or a list that is too short. *)
Theorem check_argument_match_stops_at_first_mismatch given expected i :
  (forall j, j < i -> position_compares true given expected j) ->
  position_compares false given expected i ->
  result (check_argument_match given expected) = Return false.
Proof.
  intros Hbefore Hat. unfold check_argument_match. rewrite result_tick_bind.
  apply (check_argument_match_loop_first_mismatch given expected i).
  - destruct Hat as (arg & t & p & _ & _ & Hexp & _).
    apply lookup_lt_Some in Hexp. lia.
  - intros j Hj. apply Hbefore. lia.
  - exact Hat.
Qed.

Lemma check_argument_match_loop_take given expected n range :
  Forall (fun i => i < n) range ->
  result (check_argument_match_loop given expected range) =
  result (check_argument_match_loop (take n given) expected range).
Proof.
  induction 1 as [| i range Hi _ IH]; [reflexivity |].
  cbn [check_argument_match_loop].
  rewrite !result_bind, !result_getitem, (lookup_take_lt _ _ _ Hi).
  destruct (given !! i) as [arg |]; [| reflexivity].
  rewrite !result_bind.
  destruct (result (static_type arg)) as [given_type |]; [| reflexivity].
  rewrite !result_bind, !result_getitem.
  destruct (expected !! i) as [expected_type |]; [| reflexivity].
  rewrite !result_bind, !result_call_is_subtype_of.
  destruct (negb _); [reflexivity | exact IH].
Qed.

Lemma result_check_argument_match_take given expected :
  result (check_argument_match given expected) =
  result (check_argument_match (take (length expected) given) expected).
Proof.
  unfold check_argument_match. rewrite !result_tick_bind.
  apply check_argument_match_loop_take, Forall_seq. intros; lia.
Qed.

(** X10.  [check_argument_match] looks at no more given expressions than
    there are expected types: the outcome on a list of given expressions
    is the outcome on its first [len(expected_type_list)] elements. *)
Theorem check_argument_match_ignores_extra_arguments given expected :
  result (check_argument_match given expected) =
  result (check_argument_match (take (length expected) given) expected).
Proof. apply result_check_argument_match_take. Qed.



Lemma check_argument_match_loop_static_type_failure given expected i arg x m :
  forall k,
    k <= i < k + m ->
    (forall j, k <= j < i -> position_compares true given expected j) ->
    given !! i = Some arg ->
    result (static_type arg) = Raise x ->
    result (check_argument_match_loop given expected (seq k m)) = Raise x.
Proof.
  intros k Hk Hbefore Harg Hx. revert k Hk Hbefore.
  induction m as [| m IH]; intros k Hk Hbefore; [lia |].
  cbn [seq]. destruct (decide (k = i)) as [-> | Hne].
  - cbn [check_argument_match_loop].
    rewrite result_bind, result_getitem, Harg, result_bind, Hx. reflexivity.
  - rewrite (check_argument_match_loop_step true) by (apply Hbefore; lia).
    apply IH; [lia | intros j Hj; apply Hbefore; lia].
Qed.

(** X15.  When [static_type] raises on the given expression at a position
    that has an expected type, and the positions before it compare well,
    [check_argument_match] raises that exception. *)
Theorem check_argument_match_propagates_static_type_failure
    given expected i arg x :
  i < length expected ->
  (forall j, j < i -> position_compares true given expected j) ->
  given !! i = Some arg ->
  result (static_type arg) = Raise x ->
  result (check_argument_match given expected) = Raise x.
Proof.
  intros Hi Hbefore Harg Hx. unfold check_argument_match.
  rewrite result_tick_bind.
  apply (check_argument_match_loop_static_type_failure given expected i arg);
    [lia | intros j Hj; apply Hbefore; lia | exact Harg | exact Hx].
Qed.

Lemma has_static_type_unique e t t' :
  has_static_type e t -> has_static_type e t' -> t = t'.
Proof. unfold has_static_type. congruence. Qed.

Lemma argument_mismatch_take given expected n :
  argument_mismatch (take n given) expected -> argument_mismatch given expected.
Proof.
  intros (i & arg & t & p & Harg & Hrest).
  apply lookup_take_Some in Harg as [Harg _].
  exists i, arg, t, p. auto.
Qed.

(** X12.  With at least as many given expressions as expected types, and
    a static type for each of the first [len(expected_type_list)] of them,
    [check_argument_match] returns a boolean: [True] exactly when at every
    position the given type is a subtype of the expected type, [False]
    exactly when at some position it is not. *)
Theorem check_argument_match_decides given given_types expected :
  length expected <= length given ->
  Forall2 has_static_type (take (length expected) given) given_types ->
  exists b,
    result (check_argument_match given expected) = Return b /\
    (b = true <->
     forall i, i < length expected -> position_compares true given expected i)
    /\
    (b = false <-> argument_mismatch given expected).
Proof.
  intros Hlen Hstatic.
  assert (Htake : length (take (length expected) given) = length expected)
    by (apply length_take_le, Hlen).
  destruct (result_check_argument_match _ _ _ Hstatic Htake)
    as (b & Hb & Htrue & Hfalse).
  exists b. split; [rewrite result_check_argument_match_take; exact Hb |].
  assert (Hall : b = true ->
                 forall i, i < length expected ->
                           position_compares true given expected i).
  { intros Hbt i Hi.
    destruct (lookup_lt_is_Some_2 expected i Hi) as [p Hp].
    assert (Hig : i < length (take (length expected) given)) by lia.
    destruct (lookup_lt_is_Some_2 _ i Hig) as [arg Harg].
    destruct (Forall2_lookup_l _ _ _ _ _ Hstatic Harg) as (t & Ht & Hty).
    apply lookup_take_Some in Harg as [Harg _].
    exists arg, t, p. repeat split; auto.
    apply (Htrue Hbt i); [lia | exact Ht | exact Hp]. }
  assert (Hsome : b = false -> argument_mismatch given expected)
    by (intros Hbf; apply (argument_mismatch_take _ _ (length expected)); auto).
  assert (Hexclusive :
            (forall i, i < length expected ->
                       position_compares true given expected i) ->
            argument_mismatch given expected -> False).
  { intros Hmatch (i & arg & t & p & Harg & Hty & Hp & Hsub).
    destruct (Hmatch i) as (arg' & t' & p' & Harg' & Hty' & Hp' & Hsub').
    { apply lookup_lt_Some in Hp. exact Hp. }
    rewrite Harg in Harg'. injection Harg' as <-.
    rewrite Hp in Hp'. injection Hp' as <-.
    rewrite (has_static_type_unique _ _ _ Hty Hty') in Hsub. congruence. }
  split; split.
  - exact Hall.
  - intros Hmatch. destruct b; [reflexivity |].
    destruct (Hexclusive Hmatch (Hsome eq_refl)).
  - exact Hsome.
  - intros Hmis. destruct b; [| reflexivity].
    destruct (Hexclusive (Hall eq_refl) Hmis).
Qed.

(** ** [_names] *)

(** X14.  On a list of expressions and types in any mixture, in which
    every expression has a static type, [_names] returns the names of the
    types, one for each element and in the order of the list, separated by
    a comma and a blank and put in parentheses. *)
Theorem names_of_typed_things things types :
  Forall2 thing_has_type things types ->
  result (_names things) = Return (parenthesized (map name types)).
Proof.
  intros H. unfold _names. rewrite result_bind.
  assert (Hnames : result (comprehension name_of_thing things)
                   = Return (map name types)).
  { induction H as [| thing t things types Hthing _ IH]; [reflexivity |].
    cbn [map]. rewrite result_comprehension_cons, IH.
    destruct thing as [e | t']; cbn [name_of_thing thing_has_type] in *.
    - unfold has_static_type in Hthing. rewrite result_bind, Hthing.
      reflexivity.
    - subst t'. reflexivity. }
  rewrite Hnames. reflexivity.
Qed.

End HelperTheory.

Section StoreStaticTypeTheory.
Context {JT : Types} {TM : TypeModel}.

(** X13.  [static_type] writes to no object: whatever the store, the
    address and the fuel, the store after the call is the store before it;
    on a store that holds an expression, with fuel for its height, the
    outcome is the outcome of [static_type] on the expression. *)
Theorem static_type_preserves_store :
  (forall fuel self h, (Store.static_type fuel self h).1 = h) /\
  (forall h self e fuel,
      Store.represents h self e -> height e <= fuel ->
      Store.static_type fuel self h = (h, Some (result (static_type e)))).
Proof.
  split.
  - intros fuel self h. apply preserves_static_type.
  - intros h self e fuel Hrep Hfuel.
    apply simulates_static_type; assumption.
Qed.

End StoreStaticTypeTheory.

(** * The further properties at work on the example class table *)

Section MoreExamples.
Import SpecTypes.

(** A position of the examples compares as said. *)
Ltac compares arg given_type expected_type :=
  exists arg, given_type, expected_type;
  repeat split; vm_compute; reflexivity.

(** [Animal a = new Dog()] checks, hence so does its right side, which has
    a static type. *)
Lemma checked_expression_nodes_witness :
  succeeds (check_types new_Dog) /\ exists t, has_static_type new_Dog t.
Proof.
  assert (H : succeeds (check_types animal_gets_dog))
    by (vm_compute; reflexivity).
  apply (checked_expression_nodes (TM := zoo_model)) in H.
  apply (Forall_lookup_1 _ _ 2 new_Dog) in H; [exact H | reflexivity].
Defined.

(** The checks of [Animal a = new Dog()]: the assignment, the variable,
    the constructor call. *)
Lemma check_types_visits_nodes_in_order_witness :
  checked_nodes (trace (check_types animal_gets_dog)) =
    [animal_gets_dog; JavaVariable "a" ANIMAL; new_Dog].
Proof.
  destruct (check_types_visits_nodes_in_order (TM := zoo_model)
              animal_gets_dog) as [_ H].
  rewrite H by (vm_compute; reflexivity). reflexivity.
Defined.

(** [d.bark(null)]: the exception of [static_type] is that of the
    lookup. *)
Lemma static_type_only_fails_in_lookup_witness :
  result (static_type dog_bark) =
    Raise (NoSuchJavaMethod "Dog has no method named bark") /\
  exists msg,
    NoSuchJavaMethod "Dog has no method named bark" = NoSuchJavaMethod msg.
Proof.
  assert (H : result (static_type dog_bark) =
              Raise (NoSuchJavaMethod "Dog has no method named bark"))
    by (vm_compute; reflexivity).
  split; [exact H |].
  destruct (static_type_only_fails_in_lookup (TM := zoo_model) dog_bark)
    as [_ Hexn].
  apply (Hexn _ H).
Defined.

(** [foo.bar(d.bark(null))] has variables and calls only; its check
    raises [NoSuchJavaMethod], a [JavaTypeError]. *)
Lemma proper_check_raises_type_errors_witness :
  proper foo_bar_bark /\
  is_JavaTypeError (NoSuchJavaMethod "Dog has no method named bark") = true.
Proof.
  assert (H : proper foo_bar_bark).
  { unfold proper, foo_bar_bark, dog_bark, foo, dog.
    cbn [nodes map concat app]. repeat constructor. }
  split; [exact H |].
  apply (proper_check_raises_type_errors (TM := zoo_model) foo_bar_bark H).
  vm_compute. reflexivity.
Defined.

(** [new Animal() = new Dog()]: the left side is no variable, and the
    check succeeds. *)
Lemma assignment_succeeds_iff_witness :
  succeeds (check_types object_gets_dog).
Proof.
  apply (proj2 (assignment_succeeds_iff (TM := zoo_model) new_Animal new_Dog)).
  split; [vm_compute; reflexivity |].
  split; [vm_compute; reflexivity |].
  exists ANIMAL, DOG. repeat split; vm_compute; reflexivity.
Defined.

(** [d.speak()] *)
Lemma method_call_succeeds_iff_witness :
  succeeds (check_types dog_speak).
Proof.
  apply (proj2 (method_call_succeeds_iff (TM := zoo_model)
                  dog "speak"%string [])).
  split; [vm_compute; reflexivity |].
  split; [constructor |].
  exists DOG, speak. split; [vm_compute; reflexivity |].
  split; [vm_compute; reflexivity |].
  split; [reflexivity |].
  intros (i & arg & given_type & expected_type & Harg & _).
  destruct i; discriminate Harg.
Defined.

(** [new Foo(d)]: a [Dog] where an [Animal] is expected. *)
Lemma constructor_call_succeeds_iff_witness :
  succeeds (check_types new_Foo_of_dog).
Proof.
  apply (proj2 (constructor_call_succeeds_iff (TM := zoo_model) FOO [dog])).
  split; [repeat constructor |].
  split; [vm_compute; reflexivity |].
  exists new_Foo. split; [vm_compute; reflexivity |].
  split; [reflexivity |].
  intros (i & arg & given_type & expected_type & Harg & Hty & Hexp & Hsub).
  destruct i as [| i]; [| destruct i; discriminate Harg].
  injection Harg as <-. injection Hexp as <-.
  vm_compute in Hty. injection Hty as <-.
  vm_compute in Hsub. discriminate Hsub.
Defined.

(** [1 = null]: the literal has no attribute [name]. *)
Lemma assignment_to_non_variable_witness :
  exists msg,
    result (check_types literal_gets_null) = Raise (AttributeError msg).
Proof.
  apply (assignment_to_non_variable (TM := zoo_model)
           one JavaNullLiteral INT NullType).
  - intros variable declared_type. unfold one. discriminate.
  - vm_compute. reflexivity.
  - vm_compute. reflexivity.
  - vm_compute. reflexivity.
  - vm_compute. reflexivity.
  - vm_compute. reflexivity.
Defined.

(** [(1, null, d.bark(null))] against [(int, int, int)]: [False] at the
    second position; the third, which has no static type, is not
    reached. *)
Lemma check_argument_match_stops_at_first_mismatch_witness :
  result (check_argument_match one_null_bark three_ints) = Return false.
Proof.
  apply (check_argument_match_stops_at_first_mismatch (TM := zoo_model)
           one_null_bark three_ints 1).
  - intros j Hj. assert (j = 0) as -> by lia. compares one INT INT.
  - compares (JavaNullLiteral (JT := spec_types)) NullType INT.
Defined.


(** [(1, d.bark(null))] against [(int, int)] *)
Lemma check_argument_match_propagates_static_type_failure_witness :
  result (check_argument_match one_bark two_ints) =
    Raise (NoSuchJavaMethod "Dog has no method named bark").
Proof.
  apply (check_argument_match_propagates_static_type_failure
           (TM := zoo_model) one_bark two_ints 1 dog_bark).
  - vm_compute. lia.
  - intros j Hj. assert (j = 0) as -> by lia. compares one INT INT.
  - reflexivity.
  - vm_compute. reflexivity.
Defined.

(** [(1, 1, d)] against [(int, int)]: the third expression is one too
    many and does not count. *)
Lemma check_argument_match_decides_witness :
  result (check_argument_match one_one_dog two_ints) = Return true.
Proof.
  destruct (check_argument_match_decides (TM := zoo_model)
              one_one_dog [INT; INT] two_ints) as (b & Hb & Htrue & _).
  - vm_compute. lia.
  - repeat constructor.
  - rewrite Hb. f_equal. apply Htrue. intros i Hi.
    destruct i as [| [| i]];
      [compares one INT INT | compares one INT INT |].
    vm_compute in Hi. lia.
Defined.

(** [foo.bar(d, d)] in the store with one object for both arguments. *)
Lemma static_type_preserves_store_witness :
  Store.static_type 2 3 shared_store = (shared_store, Some (Return INT)).
Proof.
  destruct (static_type_preserves_store (TM := zoo_model)) as [_ Hsim].
  rewrite (Hsim shared_store 3%positive foo_bar_dog_dog 2).
  - reflexivity.
  - eapply Store.represents_method_call.
    + reflexivity.
    + apply Store.represents_variable. reflexivity.
    + repeat constructor; reflexivity.
  - vm_compute. lia.
Defined.

(** The literal [1], the type [Animal] and [null]. *)
Lemma names_of_typed_things_witness :
  result (_names mixed_things) = Return "(int, Animal, null)"%string.
Proof.
  apply (names_of_typed_things (TM := zoo_model) mixed_things
           [INT; ANIMAL; NullType]).
  repeat constructor.
Defined.

End MoreExamples.
